(** * The sketch store of tinyfoot: document model, mutations, merge on
      receive, connection close handling and cursor liveness.

    Shallow embedding of [stores/sketchStore.ts] (the [useSketchStore] hook)
    and of the liveness filter of [components/UserCursors.tsx].

    - JavaScript numbers ([Date.now()], coordinates, widths, close codes) are
      integers [Z]; the only arithmetic the code does on them is the
      subtraction and comparison of millisecond timestamps.
    - An object used as a dictionary ([cursors]) is a [gmap string _].
    - The two sources of nondeterminism, [Math.random()] and [Date.now()],
      are arguments of the operations that read them. *)

From Stdlib Require Import ZArith String.
From stdpp Require Import base option list gmap strings.

(** ** Document types *)

(** [type Point = [number, number]] *)
Definition Point : Type := Z * Z.

Record Position : Type := { x : Z; y : Z }.

Record StrokeElement : Type := {
  stroke_id : string;
  points : list Point;
  stroke_color : string;
  width : Z;
  stroke_creator : string;
  stroke_timestamp : Z;
}.

Record NoteElement : Type := {
  note_id : string;
  text : string;
  note_position : Position;
  note_color : string;
  note_creator : string;
  note_timestamp : Z;
}.

(** [type CanvasElement = StrokeElement | NoteElement], discriminated by the
    [type] field, which is ['stroke'] or ['note']. *)
Inductive CanvasElement : Type :=
  | Stroke (s : StrokeElement)
  | Note (n : NoteElement).

Inductive ElementType : Type := stroke | note.

Global Instance ElementType_eq_dec : EqDecision ElementType.
Proof. solve_decision. Defined.

Definition element_type (el : CanvasElement) : ElementType :=
  match el with Stroke _ => stroke | Note _ => note end.

Definition element_id (el : CanvasElement) : string :=
  match el with Stroke s => stroke_id s | Note n => note_id n end.

Record Cursor : Type := { position : Position; lastActive : Z }.

Record Canvas : Type := {
  elements : list CanvasElement;
  cursors : gmap string Cursor;
  title : string;
}.

(** [SketchDoc]: the one property of the root object is [canvas].  The code
    tests [!doc.canvas] throughout, so the property is optional here. *)
Record SketchDoc : Type := { canvas : option Canvas }.

(** The object literal [{ elements: [], cursors: {}, title: 'Untitled Sketch' }]
    that the source spells out at every repair site. *)
Definition emptyCanvas : Canvas :=
  {| elements := []; cursors := ∅; title := "Untitled Sketch" |}.

Definition emptyDoc : SketchDoc := {| canvas := Some emptyCanvas |}.

(** [generateId]: [Math.random().toString(36).substring(2, 15)].  The argument
    is the base-36 rendering of the random draw (such as ["0.4fzyo82mvyr"]);
    [substring(2, 15)] keeps the characters at positions 2 to 14. *)
Definition generateId (random36 : string) : string :=
  String.substring 2 13 random36.

(** ** The Automerge calls of the store

    A document handle is modelled by the value it shows to its readers.  The
    change history behind it is used only by [save], [load] and [merge], which
    are taken as parameters of the store further down. *)
Module Automerge.

Definition Doc : Type := SketchDoc.

(** [Automerge.init()]: the document with no property at all. *)
Definition init : Doc := {| canvas := None |}.

(** [Automerge.from(initialState)] *)
Definition from (initialState : SketchDoc) : Doc := initialState.

(** [Automerge.clone(doc)]: a writable copy; it throws ([None]) when it is
    handed [undefined] rather than a document. *)
Definition clone (doc : option Doc) : option Doc := doc.

(** [Automerge.change(doc, callback)]: the document after the callback's
    assignments. *)
Definition change (doc : Doc) (callback : SketchDoc → SketchDoc) : Doc :=
  callback doc.

End Automerge.

(** ** Store state *)

Inductive ReadyState : Type := CONNECTING | OPEN | CLOSING | CLOSED.

(** The one callback the store ever hands to [setTimeout]. *)
Inductive TimeoutCallback : Type := attemptReconnect.

(** What [ws.onmessage] can find in [event.data]. *)
Inductive MessageData : Type :=
  | Blob (content : list Byte.byte)
  | ArrayBuffer (content : list Byte.byte)
  | Text (s : string)
  | Unknown.

(** The hook's state.  [doc] is the value of the [doc] state variable at the
    last render, which is what the callbacks built by [useCallback] close
    over; [currentDoc] is the content of the state cell, which is what an
    updater passed to [setDoc] receives and replaces.  [render] copies the
    second into the first. *)
Record Store : Type := {
  userId : string;
  doc : option Automerge.Doc;
  currentDoc : option Automerge.Doc;
  connected : bool;
  wsRef : option ReadyState;
  sent : list (list Byte.byte);
  timeouts : list (Z * TimeoutCallback);
}.

Definition render (st : Store) : Store :=
  {| userId := userId st; doc := currentDoc st; currentDoc := currentDoc st;
     connected := connected st; wsRef := wsRef st; sent := sent st;
     timeouts := timeouts st |}.

Definition set_currentDoc (d : option Automerge.Doc) (st : Store) : Store :=
  {| userId := userId st; doc := doc st; currentDoc := d;
     connected := connected st; wsRef := wsRef st; sent := sent st;
     timeouts := timeouts st |}.

Definition send (frame : list Byte.byte) (st : Store) : Store :=
  {| userId := userId st; doc := doc st; currentDoc := currentDoc st;
     connected := connected st; wsRef := wsRef st; sent := sent st ++ [frame];
     timeouts := timeouts st |}.

Definition setConnected (b : bool) (st : Store) : Store :=
  {| userId := userId st; doc := doc st; currentDoc := currentDoc st;
     connected := b; wsRef := wsRef st; sent := sent st;
     timeouts := timeouts st |}.

Definition setTimeout (cb : TimeoutCallback) (delay : Z) (st : Store) : Store :=
  {| userId := userId st; doc := doc st; currentDoc := currentDoc st;
     connected := connected st; wsRef := wsRef st; sent := sent st;
     timeouts := timeouts st ++ [(delay, cb)] |}.

(** The guard [!doc || !doc.canvas] that opens every mutation. *)
Definition notInitialized (doc : option Automerge.Doc) : bool :=
  match doc with
  | None => true
  | Some d => match canvas d with None => true | Some _ => false end
  end.

(** ** Change callbacks *)

(** [if (!doc.canvas) { doc.canvas = { elements: [], cursors: {}, title:
    'Untitled Sketch' } }].  The follow-up tests [!doc.canvas.cursors] and
    [!doc.canvas.elements] are false for every value of the canvas type. *)
Definition repairCanvas (d : SketchDoc) : Canvas :=
  match canvas d with
  | None => emptyCanvas
  | Some c => c
  end.

Definition updateCursor_callback (userId : string) (px py now : Z)
    (d : SketchDoc) : SketchDoc :=
  let c := repairCanvas d in
  {| canvas := Some
       {| elements := elements c;
          cursors := <[userId := {| position := {| x := px; y := py |};
                                    lastActive := now |}]> (cursors c);
          title := title c |} |}.

(** [doc.canvas.elements.push(el)] after the repair. *)
Definition push_callback (el : CanvasElement) (d : SketchDoc) : SketchDoc :=
  let c := repairCanvas d in
  {| canvas := Some
       {| elements := elements c ++ [el];
          cursors := cursors c;
          title := title c |} |}.

Definition newStroke (userId : string) (pts : list Point) (color : string)
    (w : Z) (random36 : string) (now : Z) : CanvasElement :=
  Stroke {| stroke_id := generateId random36; points := pts;
            stroke_color := color; width := w; stroke_creator := userId;
            stroke_timestamp := now |}.

Definition newNote (userId : string) (txt : string) (pos : Position)
    (color : string) (random36 : string) (now : Z) : CanvasElement :=
  Note {| note_id := generateId random36; text := txt; note_position := pos;
          note_color := color; note_creator := userId;
          note_timestamp := now |}.

(** [note.text = text; note.timestamp = Date.now()] *)
Definition assignText (txt : string) (now : Z) (n : NoteElement) : NoteElement :=
  {| note_id := note_id n; text := txt; note_position := note_position n;
     note_color := note_color n; note_creator := note_creator n;
     note_timestamp := now |}.

(** The test of [updateNote]'s [find]: [el.id === id && el.type === 'note']. *)
Definition isNoteWithId (id : string) (el : CanvasElement) : Prop :=
  element_id el = id ∧ element_type el = note.

Global Instance isNoteWithId_dec id el : Decision (isNoteWithId id el).
Proof. unfold isNoteWithId. apply _. Defined.

(** The callback of [updateNote]: no repair here, it returns at once when the
    canvas is missing; [find] yields the first element that passes the test,
    and that element is assigned [text] and [timestamp]. *)
Definition updateNote_callback (id txt : string) (now : Z)
    (d : SketchDoc) : SketchDoc :=
  match canvas d with
  | None => d
  | Some c =>
      match list_find (isNoteWithId id) (elements c) with
      | Some (i, Note n) =>
          {| canvas := Some
               {| elements := <[i := Note (assignText txt now n)]> (elements c);
                  cursors := cursors c;
                  title := title c |} |}
      | _ => d
      end
  end.

Definition updateTitle_callback (newTitle : string) (d : SketchDoc) : SketchDoc :=
  match canvas d with
  | None =>
      {| canvas := Some {| elements := []; cursors := ∅; title := newTitle |} |}
  | Some c =>
      {| canvas := Some {| elements := elements c; cursors := cursors c;
                           title := newTitle |} |}
  end.

(** The canvas assignment made to an incoming document that has none. *)
Definition fix_callback (d : SketchDoc) : SketchDoc :=
  {| canvas := Some emptyCanvas |}.

(** [value[0]] for a [value] that is a document: a read of the property
    named ["0"] of the root object.  The root of a [SketchDoc] has the single
    property [canvas], so the read yields [undefined].  (The views are
    written for a store whose [doc] can be [undefined]: [Sketch] calls
    [resetDocument] when it finds it so.) *)
Definition index_0 (value : Automerge.Doc) : option Automerge.Doc := None.

(** ** Presence: the filter of [UserCursors] *)

(** [Object.entries(doc.canvas.cursors).filter(([userId]) => userId !==
    currentUserId)] *)
Definition otherUserCursors (currentUserId : string)
    (cs : gmap string Cursor) : list (string * Cursor) :=
  filter (λ entry, entry.1 ≠ currentUserId) (map_to_list cs).

(** [otherUserCursors.filter(([_, cursor]) => Date.now() - cursor.lastActive
    < 10000)] *)
Definition activeCursors (currentUserId : string) (now : Z)
    (cs : gmap string Cursor) : list (string * Cursor) :=
  filter (λ entry, (now - lastActive entry.2 < 10000)%Z)
         (otherUserCursors currentUserId cs).

(** The component draws nothing ([null]) without a canvas and the active
    cursors otherwise. *)
Definition UserCursors (currentUserId : string) (now : Z)
    (doc : option Automerge.Doc) : option (list (string * Cursor)) :=
  match doc with
  | None => None
  | Some d =>
      match canvas d with
      | None => None
      | Some c => Some (activeCursors currentUserId now (cursors c))
      end
  end.

(** ** The store's operations

    [save], [load] and [merge] are the library's: [load] fails ([None]) on
    bytes that are not a saved document; [merge] returns the merged
    document (its declared result type is [Doc<T>], which is why the source
    needs the double cast [as unknown as [Doc, any]] before it can index the
    result). *)
Section Store.

Context (save : Automerge.Doc → list Byte.byte).
Context (load : list Byte.byte → option Automerge.Doc).
Context (merge : Automerge.Doc → Automerge.Doc → Automerge.Doc).

(** The block under [// Sync changes]: send the saved document when the
    socket exists and is open. *)
Definition syncChanges (newDoc : Automerge.Doc) (st : Store) : Store :=
  match wsRef st with
  | Some OPEN => send (save newDoc) st
  | _ => st
  end.

(** The updater shared by the five mutations:
    [setDoc(currentDoc => { try { clone; change; sync; return newDoc }
    catch { return currentDoc } })]. *)
Definition changeDoc (callback : SketchDoc → SketchDoc) (st : Store) : Store :=
  match Automerge.clone (currentDoc st) with
  | None => st
  | Some clonedDoc =>
      let newDoc := Automerge.change clonedDoc callback in
      set_currentDoc (Some newDoc) (syncChanges newDoc st)
  end.

Definition updateCursor (px py now : Z) (st : Store) : Store :=
  if notInitialized (doc st) then st
  else changeDoc (updateCursor_callback (userId st) px py now) st.

Definition addStroke (pts : list Point) (color : string) (w : Z)
    (random36 : string) (now : Z) (st : Store) : Store :=
  if notInitialized (doc st) then st
  else changeDoc
         (push_callback (newStroke (userId st) pts color w random36 now)) st.

Definition addNote (txt : string) (pos : Position) (color : string)
    (random36 : string) (now : Z) (st : Store) : Store :=
  if notInitialized (doc st) then st
  else changeDoc
         (push_callback (newNote (userId st) txt pos color random36 now)) st.

Definition updateNote (id txt : string) (now : Z) (st : Store) : Store :=
  if notInitialized (doc st) then st
  else changeDoc (updateNote_callback id txt now) st.

Definition updateTitle (newTitle : string) (st : Store) : Store :=
  if notInitialized (doc st) then st
  else changeDoc (updateTitle_callback newTitle) st.

(** The updater that [ws.onmessage] passes to [setDoc] for binary data.
    The [try] block clones the current document, loads the incoming one,
    gives it a canvas when it has none, merges, and returns element 0 of
    what [merge] returned; the [catch] block returns [currentDoc]. *)
Definition mergeIncoming (binary : list Byte.byte)
    (currentDoc : option Automerge.Doc) : option Automerge.Doc :=
  let attempt : option (option Automerge.Doc) :=
    clonedDoc ← Automerge.clone currentDoc;
    incomingDoc ← load binary;
    match canvas incomingDoc with
    | None =>
        let fixedDoc := Automerge.change incomingDoc fix_callback in
        let mergeResult := merge clonedDoc fixedDoc in
        Some (index_0 mergeResult)
    | Some _ =>
        let mergeResult := merge clonedDoc incomingDoc in
        Some (index_0 mergeResult)
    end in
  match attempt with
  | Some returned => returned
  | None => currentDoc
  end.

(** [ws.onmessage]: a [Blob] is read into a buffer first and then takes
    the same path as an [ArrayBuffer]; a string is parsed and logged; any
    other data is logged. *)
Definition onmessage (data : MessageData) (st : Store) : Store :=
  match data with
  | Blob binary | ArrayBuffer binary =>
      set_currentDoc (mergeIncoming binary (currentDoc st)) st
  | Text _ | Unknown => st
  end.

(** [ws.onopen] *)
Definition onopen (st : Store) : Store :=
  let st := setConnected true st in
  match doc st with
  | Some d => send (save d) st
  | None => st
  end.

(** [ws.onclose]: [event.code !== 1000] arms one timer of 5000 ms. *)
Definition onclose (code : Z) (st : Store) : Store :=
  let st := setConnected false st in
  if bool_decide (code ≠ 1000%Z) then setTimeout attemptReconnect 5000 st
  else st.

(** The timer's callback: when the socket is closed it calls
    [setDoc(currentDoc => currentDoc)]. *)
Definition run_attemptReconnect (st : Store) : Store :=
  match wsRef st with
  | Some CLOSED => set_currentDoc (currentDoc st) st
  | _ => st
  end.

(** The five mutations as one type, to run sequences of them. *)
Inductive Mutation : Type :=
  | AddStroke (pts : list Point) (color : string) (w : Z)
              (random36 : string) (now : Z)
  | AddNote (txt : string) (pos : Position) (color : string)
            (random36 : string) (now : Z)
  | UpdateNote (id txt : string) (now : Z)
  | UpdateTitle (newTitle : string)
  | UpdateCursor (px py now : Z).

Definition mutate (m : Mutation) (st : Store) : Store :=
  match m with
  | AddStroke pts color w random36 now =>
      addStroke pts color w random36 now st
  | AddNote txt pos color random36 now =>
      addNote txt pos color random36 now st
  | UpdateNote id txt now => updateNote id txt now st
  | UpdateTitle newTitle => updateTitle newTitle st
  | UpdateCursor px py now => updateCursor px py now st
  end.

Definition mutateAll (ms : list Mutation) (st : Store) : Store :=
  foldl (λ cur m, mutate m cur) st ms.

End Store.

(** The ids drawn by the creations of a sequence, in order. *)
Definition generatedIds (ms : list Mutation) : list string :=
  omap (λ m, match m with
             | AddStroke _ _ _ random36 _ | AddNote _ _ _ random36 _ =>
                 Some (generateId random36)
             | _ => None
             end) ms.

(** The elements a reader of the store sees. *)
Definition canvasElements (st : Store) : list CanvasElement :=
  match currentDoc st with
  | Some d => match canvas d with Some c => elements c | None => [] end
  | None => []
  end.

(** The two fields of an element that no operation assigns after creation. *)
Definition identity (el : CanvasElement) : string * ElementType :=
  (element_id el, element_type el).

(** ** A small instance of the library, to run the store on concrete frames

    One byte stands for a saved document: [x00] for the saved result of
    [Automerge.init()], [x01] for the saved [emptyDoc]; no other buffer is a
    document.  [merge] keeps the local canvas when there is one. *)
Module Sample.

Definition save (d : Automerge.Doc) : list Byte.byte :=
  match canvas d with
  | None => [Byte.x00]
  | Some _ => [Byte.x01]
  end.

Definition load (binary : list Byte.byte) : option Automerge.Doc :=
  match binary with
  | [Byte.x00] => Some Automerge.init
  | [Byte.x01] => Some emptyDoc
  | _ => None
  end.

Definition merge (local remote : Automerge.Doc) : Automerge.Doc :=
  match canvas local with
  | Some _ => local
  | None => remote
  end.

(** A replica right after start-up: [Automerge.from(emptyDoc)], rendered,
    with the given socket state. *)
Definition replica (user : string) (ws : option ReadyState) : Store :=
  {| userId := user; doc := Some (Automerge.from emptyDoc);
     currentDoc := Some (Automerge.from emptyDoc); connected := false;
     wsRef := ws; sent := []; timeouts := [] |}.

(** A replica whose document came out of the last fallback of
    [initializeDocument], [Automerge.init()], and has been rendered. *)
Definition degraded (user : string) : Store :=
  {| userId := user; doc := Some Automerge.init;
     currentDoc := Some Automerge.init; connected := false;
     wsRef := None; sent := []; timeouts := [] |}.

(** A replica that rendered a document with a canvas and whose state cell
    has since been replaced by [Automerge.init()] (as [resetDocument] does
    when both structured initialisations fail). *)
Definition stale (user : string) : Store :=
  {| userId := user; doc := Some (Automerge.from emptyDoc);
     currentDoc := Some Automerge.init; connected := true;
     wsRef := Some OPEN; sent := []; timeouts := [] |}.

(** A sketch with one stroke, one note and the cursor of another user. *)
Definition stroke1 : StrokeElement :=
  {| stroke_id := "a1"; points := [(0, 0); (4, 3)]%Z;
     stroke_color := "#000000"; width := 3; stroke_creator := "bob";
     stroke_timestamp := 1000 |}.

Definition note1 : NoteElement :=
  {| note_id := "n1"; text := "hello";
     note_position := {| x := 10; y := 20 |}; note_color := "#ffff88";
     note_creator := "bob"; note_timestamp := 1500 |}.

Definition sketch : Canvas :=
  {| elements := [Stroke stroke1; Note note1];
     cursors := {["bob" := {| position := {| x := 5; y := 5 |};
                              lastActive := 1000 |}]};
     title := "Plan" |}.

(** A replica that holds [sketch], rendered. *)
Definition editing (user : string) (ws : option ReadyState) : Store :=
  {| userId := user; doc := Some {| canvas := Some sketch |};
     currentDoc := Some {| canvas := Some sketch |}; connected := false;
     wsRef := ws; sent := []; timeouts := [] |}.

(** Three cursors seen at time 20000: one 9 s old, one 11 s old, and the
    reader's own. *)
Definition presence : gmap string Cursor :=
  <["ann" := {| position := {| x := 1; y := 1 |}; lastActive := 11000 |}]>
  (<["bob" := {| position := {| x := 2; y := 2 |}; lastActive := 9000 |}]>
  {["me" := {| position := {| x := 3; y := 3 |}; lastActive := 20000 |}]}).

End Sample.

(** ** Identity: the initialiser of [userId]

    [localStorage] is a map from keys to strings; [getItem] of a missing key
    is [null]. *)

(** [if (savedUserId)]: [null] and the empty string are falsy. *)
Definition truthy (s : string) : bool :=
  match s with
  | EmptyString => false
  | String _ _ => true
  end.

(** The function handed to [useState] for [userId]: the saved id when there
    is a truthy one, otherwise a generated one, which is saved. *)
Definition initUserId (random36 : string)
    (localStorage : gmap string string) : string * gmap string string :=
  let generated :=
    let newUserId := generateId random36 in
    (newUserId, <["tinyfoot_userId" := newUserId]> localStorage) in
  match localStorage !! "tinyfoot_userId" with
  | Some savedUserId =>
      if truthy savedUserId then (savedUserId, localStorage) else generated
  | None => generated
  end.

(** ** The rest of the hook's state: initialisation attempts and error *)

Record Hook : Type := {
  store : Store;
  initializationAttempts : nat;
  initializationError : option string;
}.

(** A store operation run inside the hook. *)
Definition inStore (op : Store → Store) (h : Hook) : Hook :=
  {| store := op (store h);
     initializationAttempts := initializationAttempts h;
     initializationError := initializationError h |}.

(** [try { return a } catch { return b }] around library calls: [None] is a
    throw. *)
Definition try_catch {A : Type} (attempt : option A) (handler : A) : A :=
  match attempt with
  | Some a => a
  | None => handler
  end.

(** [initializeDocument]: [Automerge.from(emptyDoc)]; if that throws,
    [Automerge.change(Automerge.init(), doc => { doc.canvas = ... })]; if
    that throws too, [Automerge.init()].  The library calls of this model
    do not throw. *)
Definition initializeDocument : Automerge.Doc :=
  try_catch (Some (Automerge.from emptyDoc))
    (try_catch (Some (Automerge.change Automerge.init fix_callback))
       Automerge.init).

(** The effect under [// Ensure document is properly initialized], which
    reads the rendered [doc] and the attempt counter:
    [if ((!doc || !doc.canvas) && initializationAttempts < 3)] it counts one
    attempt, stores a new document with the empty canvas and clears the
    error. *)
Definition ensureInitialized (h : Hook) : Hook :=
  if notInitialized (doc (store h)) && (initializationAttempts h <? 3) then
    {| store :=
         set_currentDoc
           (Some (Automerge.change Automerge.init fix_callback)) (store h);
       initializationAttempts := initializationAttempts h + 1;
       initializationError := None |}
  else h.

(** [resetDocument]: the state cell gets [initializeDocument()], the
    counter goes back to 0, the error is cleared, and [true] is returned. *)
Definition resetDocument (h : Hook) : bool * Hook :=
  (true,
   {| store := set_currentDoc (Some initializeDocument) (store h);
      initializationAttempts := 0;
      initializationError := None |}).

(** React renders the hook and then runs the effect. *)
Definition commit (h : Hook) : Hook := ensureInitialized (inStore render h).

(** ** [StickyNote] *)

(** [note.id.split('').reduce((acc, char) => acc + char.charCodeAt(0), 0)]
    and [(seed % 10) - 5]; [%] is the remainder that takes the sign of the
    dividend.  The characters of an id made by [generateId] are digits and
    lower-case letters, whose code is their ASCII code. *)
Definition getRotation (id : string) : Z :=
  let seed :=
    foldl (λ acc char, (acc + Z.of_nat (Ascii.nat_of_ascii char))%Z) 0%Z
          (list_ascii_of_string id) in
  (Z.rem seed 10 - 5)%Z.

(** The component's own state: [isEditing] and the text being edited. *)
Record StickyNoteState : Type := {
  isEditing : bool;
  editedText : string;
}.

(** What [handleKeyDown] looks at: [e.key] and [e.shiftKey]. *)
Record KeyEvent : Type := { key : string; shiftKey : bool }.

(** ** The views that drive the store

    Each handler is run on the state of the latest render of its component:
    the component state it reads is the argument, the one it sets is the
    result. *)

(** The state of [Canvas]. *)
Record CanvasState : Type := {
  isDrawing : bool;
  currentStroke : list Point;
  color : string;
  strokeWidth : Z;
  cursorPosition : option Position;
}.

(** What can happen to [Canvas]: the mouse events with the position
    [e.clientX - rect.left], [e.clientY - rect.top] already computed, the
    one-second timer, the two inputs of the toolbar, and a render that
    follows a change of [doc], [updateCursor] or [cursorPosition], after
    which React runs the cursor effect again.  Events that reach the store
    carry what [Date.now()] and [Math.random()] return when they run. *)
Inductive CanvasEvent : Type :=
  | MouseDown (px py now : Z)
  | MouseMove (px py now : Z)
  | MouseUp (random36 : string) (now : Z)
  | MouseLeave (random36 : string) (now : Z)
  | MouseEnter (px py now : Z)
  | Tick (now : Z)
  | SetColor (value : string)
  | SetStrokeWidth (value : Z)
  | Rerender (now : Z).

(** One mouse move of a gesture: where the pointer went, when the handler
    ran, and when the renders that followed it ran the cursor effect. *)
Record Move : Type := {
  toX : Z;
  toY : Z;
  atTime : Z;
  thenRenders : list Z;
}.

(** The state of [Sketch]. *)
Record SketchState : Type := {
  localDoc : option Automerge.Doc;
  titleInput : string;
  isEditingTitle : bool;
  resetAttempted : bool;
}.

Section Views.

Context (save : Automerge.Doc → list Byte.byte).
Context (load : list Byte.byte → option Automerge.Doc).
Context (merge : Automerge.Doc → Automerge.Doc → Automerge.Doc).

(** A binary frame arrives, React renders, the effect runs, and React
    renders what the effect stored. *)
Definition receiveAndSettle (binary : list Byte.byte) (h : Hook) : Hook :=
  commit (commit (inStore (onmessage load merge (ArrayBuffer binary)) h)).

(** *** [StickyNote]: [updateNote] is [externalUpdateNote || storeUpdateNote],
    a parameter here. *)

Definition handleDoubleClick (cs : StickyNoteState) : StickyNoteState :=
  {| isEditing := true; editedText := editedText cs |}.

Definition handleChange (value : string) (cs : StickyNoteState)
    : StickyNoteState :=
  {| isEditing := isEditing cs; editedText := value |}.

(** [setIsEditing(false); if (text !== note.text) updateNote(note.id, text)] *)
Definition handleBlur {S : Type} (updateNote : string → string → S → S)
    (note : NoteElement) (cs : StickyNoteState) (outer : S)
    : StickyNoteState * S :=
  ({| isEditing := false; editedText := editedText cs |},
   if bool_decide (editedText cs ≠ text note)
   then updateNote (note_id note) (editedText cs) outer
   else outer).

(** [if (e.key === 'Enter' && !e.shiftKey) { setIsEditing(false);
    updateNote(note.id, text) }] *)
Definition handleKeyDown {S : Type} (updateNote : string → string → S → S)
    (note : NoteElement) (e : KeyEvent) (cs : StickyNoteState) (outer : S)
    : StickyNoteState * S :=
  if bool_decide (key e = "Enter") && negb (shiftKey e)
  then ({| isEditing := false; editedText := editedText cs |},
        updateNote (note_id note) (editedText cs) outer)
  else (cs, outer).

(** *** [Canvas] *)

(** [const doc = externalDoc || storeDoc] *)
Definition displayedDoc (externalDoc : option Automerge.Doc) (st : Store)
    : option Automerge.Doc :=
  match externalDoc with
  | Some d => Some d
  | None => doc st
  end.

Definition handleMouseDown (px py now : Z) (cs : CanvasState) (st : Store)
    : CanvasState * Store :=
  ({| isDrawing := true; currentStroke := [(px, py)]; color := color cs;
      strokeWidth := strokeWidth cs;
      cursorPosition := Some {| x := px; y := py |} |},
   updateCursor save px py now st).

Definition handleMouseMove (px py now : Z) (cs : CanvasState) (st : Store)
    : CanvasState * Store :=
  ({| isDrawing := isDrawing cs;
      currentStroke :=
        if isDrawing cs then currentStroke cs ++ [(px, py)]
        else currentStroke cs;
      color := color cs; strokeWidth := strokeWidth cs;
      cursorPosition := Some {| x := px; y := py |} |},
   updateCursor save px py now st).

(** The body shared by [handleMouseUp] and [handleMouseLeave]:
    [if (isDrawing && currentStroke.length > 0) { addStroke(currentStroke,
    color, strokeWidth); setCurrentStroke([]); setIsDrawing(false) }]. *)
Definition handleMouseUp (random36 : string) (now : Z) (cs : CanvasState)
    (st : Store) : CanvasState * Store :=
  if isDrawing cs && bool_decide (0 < length (currentStroke cs)) then
    ({| isDrawing := false; currentStroke := []; color := color cs;
        strokeWidth := strokeWidth cs; cursorPosition := cursorPosition cs |},
     addStroke save (currentStroke cs) (color cs) (strokeWidth cs)
       random36 now st)
  else (cs, st).

Definition handleMouseEnter (px py now : Z) (cs : CanvasState) (st : Store)
    : CanvasState * Store :=
  ({| isDrawing := isDrawing cs; currentStroke := currentStroke cs;
      color := color cs; strokeWidth := strokeWidth cs;
      cursorPosition := Some {| x := px; y := py |} |},
   updateCursor save px py now st).

(** The interval of the cursor effect: [if (cursorPosition && doc &&
    doc.canvas) updateCursor(cursorPosition.x, cursorPosition.y)]. *)
Definition cursorInterval (now : Z) (cs : CanvasState) (st : Store)
    : CanvasState * Store :=
  match cursorPosition cs with
  | Some pos => (cs, updateCursor save (x pos) (y pos) now st)
  | None => (cs, st)
  end.

(** The cursor effect, run again after a render that changed one of its
    dependencies [cursorPosition], [updateCursor] and [doc]: under the test
    [cursorPosition && doc && doc.canvas] on the displayed document it makes
    the call under [// Initial update] and sets up the interval, whose
    callback is [cursorInterval] under the same test ([Tick]). *)
Definition cursorEffect (externalDoc : option Automerge.Doc) (now : Z)
    (cs : CanvasState) (st : Store) : CanvasState * Store :=
  if notInitialized (displayedDoc externalDoc st) then (cs, st)
  else cursorInterval now cs st.

(** One event.  The five mouse handlers and the interval all open with
    [if (!doc || !doc.canvas) return;] on the displayed document; the
    canvas element is mounted.  A render hands the hook's state cell to the
    component and the cursor effect runs on what was rendered.  (The hook's
    initialisation effect, which acts only on a document without canvas, is
    [ensureInitialized]; it is run by [commit], not by this step.) *)
Definition canvasStep (externalDoc : option Automerge.Doc) (ev : CanvasEvent)
    (cs : CanvasState) (st : Store) : CanvasState * Store :=
  match ev with
  | SetColor value =>
      ({| isDrawing := isDrawing cs; currentStroke := currentStroke cs;
          color := value; strokeWidth := strokeWidth cs;
          cursorPosition := cursorPosition cs |}, st)
  | SetStrokeWidth value =>
      ({| isDrawing := isDrawing cs; currentStroke := currentStroke cs;
          color := color cs; strokeWidth := value;
          cursorPosition := cursorPosition cs |}, st)
  | Rerender now => cursorEffect externalDoc now cs (render st)
  | _ =>
      if notInitialized (displayedDoc externalDoc st) then (cs, st)
      else
        match ev with
        | MouseDown px py now => handleMouseDown px py now cs st
        | MouseMove px py now => handleMouseMove px py now cs st
        | MouseUp random36 now | MouseLeave random36 now =>
            handleMouseUp random36 now cs st
        | MouseEnter px py now => handleMouseEnter px py now cs st
        | Tick now => cursorInterval now cs st
        | _ => (cs, st)
        end
  end.

(** A run of events, each with the [externalDoc] prop of its render. *)
Definition canvasRun (evs : list (option Automerge.Doc * CanvasEvent))
    (cs : CanvasState) (st : Store) : CanvasState * Store :=
  foldl (λ acc ev, canvasStep ev.1 ev.2 acc.1 acc.2) (cs, st) evs.

(** The renders that follow one handler call.  Every call of [updateCursor]
    or [addStroke] stores a new document, so React renders again and the
    cursor effect, which depends on [doc], runs again; the call it makes
    stores a new document in turn, so that more renders follow: [times]
    are the times at which the effect ran before the next mouse event. *)
Definition rendersAt (externalDoc : option Automerge.Doc) (times : list Z)
    : list (option Automerge.Doc * CanvasEvent) :=
  (λ now, (externalDoc, Rerender now)) <$> times.

(** Press, move, release, as React runs them: each handler call followed
    by its renders. *)
Definition gesture (externalDoc : option Automerge.Doc) (p0x p0y t0 : Z)
    (pressRenders : list Z) (moves : list Move) (random36 : string) (tUp : Z)
    (releaseRenders : list Z) : list (option Automerge.Doc * CanvasEvent) :=
  ((externalDoc, MouseDown p0x p0y t0) :: rendersAt externalDoc pressRenders)
  ++ (moves ≫= λ m, (externalDoc, MouseMove (toX m) (toY m) (atTime m))
                     :: rendersAt externalDoc (thenRenders m))
  ++ ((externalDoc, MouseUp random36 tUp)
      :: rendersAt externalDoc releaseRenders).

(** The times at which a gesture writes the user's cursor: the press, the
    moves, and the cursor effect after each render. *)
Definition cursorWrites (t0 : Z) (pressRenders : list Z) (moves : list Move)
    (releaseRenders : list Z) : list Z :=
  (t0 :: pressRenders)
  ++ (moves ≫= λ m, atTime m :: thenRenders m)
  ++ releaseRenders.

(** [Canvas] and its store in the middle of a gesture: the component's
    state, the guards of the handlers and of the store open, and the state
    cell holding the elements [els] and the user's cursor at [pos], written
    at [written]. *)
Definition inGesture (externalDoc : option Automerge.Doc) (user : string)
    (col : string) (w : Z) (others : gmap string Cursor) (ttl : string)
    (drawing : bool) (pts : list Point) (els : list CanvasElement)
    (pos : Position) (written : Z) (r : CanvasState * Store) : Prop :=
  isDrawing r.1 = drawing
  ∧ currentStroke r.1 = pts
  ∧ color r.1 = col
  ∧ strokeWidth r.1 = w
  ∧ cursorPosition r.1 = Some pos
  ∧ userId r.2 = user
  ∧ notInitialized (displayedDoc externalDoc r.2) = false
  ∧ notInitialized (doc r.2) = false
  ∧ currentDoc r.2
      = Some {| canvas := Some
                  {| elements := els;
                     cursors := <[user := {| position := pos;
                                             lastActive := written |}]> others;
                     title := ttl |} |}.

(** *** [Sketch] *)

(** The effect under [// Force document initialization if needed]: without
    a document it calls [resetDocument], otherwise it copies the document
    into [localDoc]. *)
Definition mirrorEffect (h : Hook) (ss : SketchState) : Hook * SketchState :=
  match doc (store h) with
  | None => ((resetDocument h).2, ss)
  | Some d =>
      (h, {| localDoc := Some d; titleInput := titleInput ss;
             isEditingTitle := isEditingTitle ss;
             resetAttempted := resetAttempted ss |})
  end.

(** The effect under [// Update title when doc changes]. *)
Definition titleEffect (ss : SketchState) : SketchState :=
  match localDoc ss with
  | Some {| canvas := Some c |} =>
      {| localDoc := localDoc ss; titleInput := title c;
         isEditingTitle := isEditingTitle ss;
         resetAttempted := resetAttempted ss |}
  | _ => ss
  end.

(** [handleTitleChange] *)
Definition handleTitleChange (value : string) (ss : SketchState)
    : SketchState :=
  {| localDoc := localDoc ss; titleInput := value;
     isEditingTitle := isEditingTitle ss;
     resetAttempted := resetAttempted ss |}.

(** [handleTitleBlur], which is also what [handleTitleKeyDown] does on
    [Enter]: editing ends and, when [localDoc] has a canvas, the store's
    [updateTitle] is called with the input's value. *)
Definition handleTitleBlur (h : Hook) (ss : SketchState)
    : Hook * SketchState :=
  (if notInitialized (localDoc ss) then h
   else inStore (updateTitle save (titleInput ss)) h,
   {| localDoc := localDoc ss; titleInput := titleInput ss;
      isEditingTitle := false; resetAttempted := resetAttempted ss |}).

(** React renders [Sketch]: the hook is rendered, then the hook's effect,
    the mirror effect and the title effect run, in the order in which the
    component declares them. *)
Definition sketchCommit (h : Hook) (ss : SketchState) : Hook * SketchState :=
  let h1 := commit h in
  let '(h2, ss1) := mirrorEffect h1 ss in
  (h2, titleEffect ss1).

(** A binary frame arrives in the store of [Sketch] and React renders until
    nothing changes any more (two renders are enough, see
    [sketchCommit_settled]). *)
Definition sketchReceive (binary : list Byte.byte) (h : Hook)
    (ss : SketchState) : Hook * SketchState :=
  let '(h1, ss1) :=
    sketchCommit (inStore (onmessage load merge (ArrayBuffer binary)) h) ss in
  sketchCommit h1 ss1.

End Views.

(** ** [ExportOptions] *)

(** [`${doc.canvas.title || 'untitled-sketch'}.png`]: reading [canvas] of an
    undefined document, or [title] of an undefined canvas, throws. *)
Definition downloadName (doc : option Automerge.Doc) : option string :=
  d ← doc;
  c ← canvas d;
  Some ((if truthy (title c) then title c else "untitled-sketch") +:+ ".png").

(** The change callback that each mutation hands to [Automerge.change]. *)
Definition mutationCallback (userId : string) (m : Mutation)
    : SketchDoc → SketchDoc :=
  match m with
  | AddStroke pts color w random36 now =>
      push_callback (newStroke userId pts color w random36 now)
  | AddNote txt pos color random36 now =>
      push_callback (newNote userId txt pos color random36 now)
  | UpdateNote id txt now => updateNote_callback id txt now
  | UpdateTitle newTitle => updateTitle_callback newTitle
  | UpdateCursor px py now => updateCursor_callback userId px py now
  end.

(** The cursors and the title a reader of the store sees. *)
Definition canvasCursors (st : Store) : gmap string Cursor :=
  match currentDoc st with
  | Some d => match canvas d with Some c => cursors c | None => ∅ end
  | None => ∅
  end.

Definition canvasTitle (st : Store) : option string :=
  d ← currentDoc st; c ← canvas d; Some (title c).

(** ** Sample states of the hook and of the views *)
Module SampleViews.

(** The hook right after start-up, with [Sample.sketch] in its store. *)
Definition hook (ws : option ReadyState) : Hook :=
  {| store := Sample.editing "alice" ws; initializationAttempts := 0;
     initializationError := None |}.

(** [Sketch] showing [Sample.sketch]. *)
Definition sketchState : SketchState :=
  {| localDoc := Some {| canvas := Some Sample.sketch |};
     titleInput := "Plan"; isEditingTitle := true; resetAttempted := false |}.

(** [Canvas] at rest, with the initial colour and width. *)
Definition canvasState : CanvasState :=
  {| isDrawing := false; currentStroke := []; color := "#000000";
     strokeWidth := 3; cursorPosition := None |}.

(** A [StickyNote] mounted when the note still read ["hi"]. *)
Definition stickyNoteState : StickyNoteState :=
  {| isEditing := true; editedText := "hi" |}.

End SampleViews.

(** * Properties *)

Lemma generatedIds_cons (m : Mutation) (ms : list Mutation) :
  generatedIds (m :: ms) = generatedIds [m] ++ generatedIds ms.
Proof. unfold generatedIds. by rewrite <-omap_app. Qed.

Lemma set_currentDoc_same (st : Store) : set_currentDoc (currentDoc st) st = st.
Proof. by destruct st. Qed.

Section StoreProperties.

Context (save : Automerge.Doc → list Byte.byte).
Context (load : list Byte.byte → option Automerge.Doc).
Context (merge : Automerge.Doc → Automerge.Doc → Automerge.Doc).

(** What the receive updater computes, case by case: without a current
    document [clone] throws; an undecodable buffer makes [load] throw; in
    both cases the current value is returned.  Otherwise the returned
    value is element 0 of the merged document. *)
Lemma mergeIncoming_cases (binary : list Byte.byte)
    (cur : option Automerge.Doc) :
  mergeIncoming load merge binary cur =
    match cur with
    | None => None
    | Some d => match load binary with None => Some d | Some _ => None end
    end.
Proof.
  unfold mergeIncoming, Automerge.clone, index_0.
  destruct cur as [d|]; simpl; [|done].
  destruct (load binary) as [incoming|]; simpl; [|done].
  by destruct (canvas incoming).
Qed.

(** C2.  A buffer that the library cannot load leaves the state cell as it
    was, whichever branch of [onmessage] carries it, and the handler
    returns normally: the whole store is unchanged. *)
Theorem undecodable_payload_keeps_document (st : Store)
    (binary : list Byte.byte) :
  load binary = None →
  mergeIncoming load merge binary (currentDoc st) = currentDoc st
  ∧ onmessage load merge (ArrayBuffer binary) st = st
  ∧ onmessage load merge (Blob binary) st = st.
Proof.
  intros Hload.
  assert (mergeIncoming load merge binary (currentDoc st) = currentDoc st)
    as Hsame.
  { rewrite mergeIncoming_cases, Hload. by destruct (currentDoc st). }
  unfold onmessage. rewrite Hsame. by rewrite set_currentDoc_same.
Qed.

(** X1.  A buffer that the library loads, with or without a canvas, leaves no
    document in the state cell: the value returned is element 0 of the
    merged document, and a document has no such property. *)
Theorem decodable_payload_leaves_no_document (d : Automerge.Doc)
    (binary : list Byte.byte) :
  is_Some (load binary) →
  mergeIncoming load merge binary (Some d) = None.
Proof. intros [incoming Hload]. by rewrite mergeIncoming_cases, Hload. Qed.

(** C9.  [ws.onclose] with the clean code 1000 arms no timer; with any
    other code it arms exactly one, the reconnect attempt, 5000 ms later.
    In both cases [connected] becomes [false]. *)
Theorem onclose_arms_one_reconnect_unless_clean (code : Z) (st : Store) :
  (code = 1000%Z → timeouts (onclose code st) = timeouts st)
  ∧ (code ≠ 1000%Z →
       timeouts (onclose code st)
         = timeouts st ++ [(5000%Z, attemptReconnect)]
       ∧ length (timeouts (onclose code st)) = S (length (timeouts st)))
  ∧ connected (onclose code st) = false.
Proof.
  unfold onclose. split; [|split].
  - intros ->. done.
  - intros Hne. rewrite bool_decide_eq_true_2 by done. simpl.
    split; [done|]. rewrite length_app. simpl. lia.
  - by case_bool_decide.
Qed.

(** C10.  When the document the hook holds is absent or has no canvas,
    each of the five mutations returns at once: the store is left exactly
    as it was, so the document is not modified or repaired and nothing is
    added to the frames sent. *)
Theorem mutations_return_at_once_when_not_initialized (st : Store)
    (px py now w : Z) (pts : list Point) (color random36 txt id newTitle : string)
    (pos : Position) :
  notInitialized (doc st) = true →
  updateCursor save px py now st = st
  ∧ addStroke save pts color w random36 now st = st
  ∧ addNote save txt pos color random36 now st = st
  ∧ updateNote save id txt now st = st
  ∧ updateTitle save newTitle st = st.
Proof.
  intros Hguard.
  unfold updateCursor, addStroke, addNote, updateNote, updateTitle.
  by rewrite Hguard.
Qed.

(** *** The shared updater *)

Lemma changeDoc_currentDoc (callback : SketchDoc → SketchDoc) (st : Store)
    (d : Automerge.Doc) :
  currentDoc st = Some d →
  currentDoc (changeDoc save callback st) = Some (callback d).
Proof.
  intros Hcur. unfold changeDoc, Automerge.clone, Automerge.change, syncChanges.
  rewrite Hcur. by destruct (wsRef st) as [[]|].
Qed.

Lemma changeDoc_absent (callback : SketchDoc → SketchDoc) (st : Store) :
  currentDoc st = None → changeDoc save callback st = st.
Proof. intros Hcur. unfold changeDoc, Automerge.clone. by rewrite Hcur. Qed.

(** Apart from the state cell and the frames sent, the updater touches
    nothing; it sends the saved new document exactly when the socket exists
    and is open. *)
Lemma changeDoc_frame (callback : SketchDoc → SketchDoc) (st : Store)
    (d : Automerge.Doc) :
  currentDoc st = Some d →
  userId (changeDoc save callback st) = userId st
  ∧ doc (changeDoc save callback st) = doc st
  ∧ connected (changeDoc save callback st) = connected st
  ∧ wsRef (changeDoc save callback st) = wsRef st
  ∧ timeouts (changeDoc save callback st) = timeouts st
  ∧ sent (changeDoc save callback st)
      = match wsRef st with
        | Some OPEN => sent st ++ [save (callback d)]
        | _ => sent st
        end.
Proof.
  intros Hcur. unfold changeDoc, Automerge.clone, Automerge.change, syncChanges.
  rewrite Hcur. by destruct (wsRef st) as [[]|] eqn:Hws.
Qed.

(** C6.  With a canvas in the document, [addStroke] replaces the document
    by one whose elements are the previous ones followed by exactly one
    stroke, carrying the given points, colour and width, the id made from
    the random draw, the store's user id as creator and the current time;
    cursors and title are the previous ones.  This holds for every points
    list and width (so for the non-empty lists and positive widths of the
    claim) and for every socket state: without an open socket nothing is
    sent and the document is updated all the same. *)
Theorem addStroke_appends_one_stroke (st : Store) (d : Automerge.Doc)
    (c : Canvas) (pts : list Point) (color : string) (w : Z)
    (random36 : string) (now : Z) :
  notInitialized (doc st) = false →
  currentDoc st = Some d →
  canvas d = Some c →
  currentDoc (addStroke save pts color w random36 now st)
    = Some {| canvas := Some
                {| elements :=
                     elements c ++
                     [Stroke {| stroke_id := generateId random36;
                                points := pts; stroke_color := color;
                                width := w; stroke_creator := userId st;
                                stroke_timestamp := now |}];
                   cursors := cursors c;
                   title := title c |} |}
  ∧ (wsRef st ≠ Some OPEN →
       sent (addStroke save pts color w random36 now st) = sent st)
  ∧ userId (addStroke save pts color w random36 now st) = userId st
  ∧ connected (addStroke save pts color w random36 now st) = connected st
  ∧ wsRef (addStroke save pts color w random36 now st) = wsRef st
  ∧ timeouts (addStroke save pts color w random36 now st) = timeouts st.
Proof.
  intros Hguard Hcur Hcanvas. unfold addStroke. rewrite Hguard.
  pose proof (changeDoc_frame
    (push_callback (newStroke (userId st) pts color w random36 now)) st d Hcur)
    as (Hu & _ & Hc & Hw & Ht & Hs).
  rewrite (changeDoc_currentDoc _ st d Hcur), Hu, Hc, Hw, Ht, Hs.
  unfold push_callback, repairCanvas, newStroke. rewrite Hcanvas.
  repeat split; try done.
  intros Hclosed. by destruct (wsRef st) as [[]|].
Qed.

(** C7.  With a canvas in the document, [updateCursor] stores under the
    store's user id the cursor at the given position with [lastActive] the
    current time: a read at that key yields this cursor whatever was there
    before, a read at any other key yields what it yielded before, no key
    occurs twice among the entries, and the elements and the title are the
    previous ones. *)
Theorem updateCursor_upserts_own_entry (st : Store) (d : Automerge.Doc)
    (c : Canvas) (px py now : Z) :
  notInitialized (doc st) = false →
  currentDoc st = Some d →
  canvas d = Some c →
  ∃ c' : Canvas,
    currentDoc (updateCursor save px py now st) = Some {| canvas := Some c' |}
    ∧ cursors c'
        = <[userId st := {| position := {| x := px; y := py |};
                            lastActive := now |}]> (cursors c)
    ∧ cursors c' !! userId st
        = Some {| position := {| x := px; y := py |}; lastActive := now |}
    ∧ (∀ other : string,
         other ≠ userId st → cursors c' !! other = cursors c !! other)
    ∧ NoDup (map_to_list (cursors c')).*1
    ∧ elements c' = elements c
    ∧ title c' = title c.
Proof.
  intros Hguard Hcur Hcanvas. unfold updateCursor. rewrite Hguard.
  rewrite (changeDoc_currentDoc _ st d Hcur).
  unfold updateCursor_callback, repairCanvas. rewrite Hcanvas.
  eexists. split; [done|]. simpl.
  split; [done|]. split; [apply lookup_insert_eq|].
  split; [|split; [apply NoDup_fst_map_to_list|done]].
  intros other Hother. by apply lookup_insert_ne.
Qed.

(** *** [updateNote] *)

Lemma updateNote_callback_found (c : Canvas) (id txt : string) (now : Z)
    (i : nat) (n : NoteElement) :
  list_find (isNoteWithId id) (elements c) = Some (i, Note n) →
  updateNote_callback id txt now {| canvas := Some c |}
    = {| canvas := Some
           {| elements := <[i := Note (assignText txt now n)]> (elements c);
              cursors := cursors c; title := title c |} |}.
Proof. intros Hfind. unfold updateNote_callback. simpl. by rewrite Hfind. Qed.

Lemma updateNote_callback_not_found (d : SketchDoc) (c : Canvas)
    (id txt : string) (now : Z) :
  canvas d = Some c →
  list_find (isNoteWithId id) (elements c) = None →
  updateNote_callback id txt now d = d.
Proof.
  intros Hcanvas Hfind. unfold updateNote_callback. by rewrite Hcanvas, Hfind.
Qed.

(** [find] returns the same position after the assignment: the element
    there still passes the test and the earlier ones are untouched. *)
Lemma list_find_after_assignText (els : list CanvasElement) (id txt : string)
    (now : Z) (i : nat) (n : NoteElement) :
  list_find (isNoteWithId id) els = Some (i, Note n) →
  list_find (isNoteWithId id) (<[i := Note (assignText txt now n)]> els)
    = Some (i, Note (assignText txt now n)).
Proof.
  intros (Hi & Hmatch & Hfirst)%list_find_Some. apply list_find_Some.
  split; [|split].
  - apply list_lookup_insert_eq. by eapply lookup_lt_Some.
  - exact Hmatch.
  - intros j el Hj Hlt. rewrite list_lookup_insert_ne in Hj by lia. eauto.
Qed.

(** C4.  With a canvas in the document: when some element has the given id
    and the tag ['note'], the first such element, at position [i], gets the
    given text and the current time as timestamp, every other field and
    element staying as it was; a second call with the same id and text
    leaves that text in place.  When no element has that id with the tag
    ['note'] (no element with the id, or only strokes), the document is
    returned as it was, after one call and after two. *)
Theorem updateNote_sets_text_of_the_note (st : Store) (d : Automerge.Doc)
    (c : Canvas) (id txt : string) (now now' : Z) :
  notInitialized (doc st) = false →
  currentDoc st = Some d →
  canvas d = Some c →
  ((∃ el, el ∈ elements c ∧ element_id el = id ∧ element_type el = note) →
   ∃ (i : nat) (n : NoteElement),
     elements c !! i = Some (Note n)
     ∧ note_id n = id
     ∧ (∀ j el, elements c !! j = Some el → j < i →
          ¬ (element_id el = id ∧ element_type el = note))
     ∧ currentDoc (updateNote save id txt now st)
         = Some {| canvas := Some
                     {| elements :=
                          <[i := Note {| note_id := note_id n; text := txt;
                                         note_position := note_position n;
                                         note_color := note_color n;
                                         note_creator := note_creator n;
                                         note_timestamp := now |}]>
                            (elements c);
                        cursors := cursors c; title := title c |} |}
     ∧ currentDoc (updateNote save id txt now'
                     (updateNote save id txt now st))
         = Some {| canvas := Some
                     {| elements :=
                          <[i := Note {| note_id := note_id n; text := txt;
                                         note_position := note_position n;
                                         note_color := note_color n;
                                         note_creator := note_creator n;
                                         note_timestamp := now' |}]>
                            (elements c);
                        cursors := cursors c; title := title c |} |})
  ∧ ((∀ el, el ∈ elements c →
        ¬ (element_id el = id ∧ element_type el = note)) →
     currentDoc (updateNote save id txt now st) = Some d
     ∧ currentDoc (updateNote save id txt now'
                     (updateNote save id txt now st)) = Some d).
Proof.
  intros Hguard Hcur Hcanvas.
  assert (∀ cb, doc (changeDoc save cb st) = doc st) as Hdoc.
  { intros cb. by destruct (changeDoc_frame cb st d Hcur) as (_ & ? & _). }
  destruct d as [oc]. simpl in Hcanvas. subst oc.
  unfold updateNote. rewrite Hguard. split.
  - intros (el & Hel & Hid & Htype).
    destruct (list_find_elem_of (isNoteWithId id) _ el Hel (conj Hid Htype))
      as [[i el0] Hfind].
    pose proof Hfind as (Hi & [Hid0 Htype0] & Hfirst)%list_find_Some.
    destruct el0 as [s|n]; [done|]. exists i, n.
    split; [done|]. split; [done|]. split; [exact Hfirst|].
    rewrite (changeDoc_currentDoc _ st _ Hcur).
    rewrite (updateNote_callback_found c id txt now i n Hfind).
    split; [done|].
    rewrite Hdoc, Hguard.
    erewrite changeDoc_currentDoc
      by (apply changeDoc_currentDoc; exact Hcur).
    rewrite (updateNote_callback_found c id txt now i n Hfind).
    erewrite updateNote_callback_found
      by (simpl; by apply list_find_after_assignText).
    simpl. by rewrite list_insert_insert_eq.
  - intros Hnone.
    assert (list_find (isNoteWithId id) (elements c) = None) as Hfind.
    { apply list_find_None, Forall_forall. exact Hnone. }
    rewrite (changeDoc_currentDoc _ st _ Hcur).
    rewrite (updateNote_callback_not_found _ c) by done.
    split; [done|].
    rewrite Hdoc, Hguard.
    erewrite changeDoc_currentDoc
      by (apply changeDoc_currentDoc; exact Hcur).
    by rewrite !(updateNote_callback_not_found {| canvas := Some c |} c)
      by done.
Qed.

(** *** A current document without canvas *)

(** C3, as amended.  Take a current document whose canvas is absent.  When
    the guard passes (the document of the last render has a canvas),
    [addStroke], [addNote] and [updateCursor] produce the empty canvas with
    the change applied to it, and [updateTitle] produces a canvas with no
    elements, no cursors and the given title; [updateNote] leaves the
    document without a canvas.  When the guard does not pass, each of the
    five returns the store as it was. *)
Theorem mutations_on_a_document_without_canvas (st : Store)
    (d : Automerge.Doc) (px py now w : Z) (pts : list Point)
    (color random36 txt id newTitle : string) (pos : Position) :
  currentDoc st = Some d →
  canvas d = None →
  (notInitialized (doc st) = false →
     currentDoc (addStroke save pts color w random36 now st)
       = Some {| canvas := Some
                   {| elements :=
                        [newStroke (userId st) pts color w random36 now];
                      cursors := ∅; title := "Untitled Sketch" |} |}
     ∧ currentDoc (addNote save txt pos color random36 now st)
       = Some {| canvas := Some
                   {| elements :=
                        [newNote (userId st) txt pos color random36 now];
                      cursors := ∅; title := "Untitled Sketch" |} |}
     ∧ currentDoc (updateCursor save px py now st)
       = Some {| canvas := Some
                   {| elements := [];
                      cursors :=
                        {[userId st := {| position := {| x := px; y := py |};
                                          lastActive := now |}]};
                      title := "Untitled Sketch" |} |}
     ∧ currentDoc (updateTitle save newTitle st)
       = Some {| canvas := Some
                   {| elements := []; cursors := ∅; title := newTitle |} |}
     ∧ currentDoc (updateNote save id txt now st) = Some d)
  ∧ (notInitialized (doc st) = true →
     addStroke save pts color w random36 now st = st
     ∧ addNote save txt pos color random36 now st = st
     ∧ updateCursor save px py now st = st
     ∧ updateTitle save newTitle st = st
     ∧ updateNote save id txt now st = st).
Proof.
  intros Hcur Hcanvas.
  unfold addStroke, addNote, updateCursor, updateTitle, updateNote.
  split; intros Hguard; rewrite Hguard; [|done].
  rewrite !(changeDoc_currentDoc _ st d Hcur).
  unfold push_callback, updateCursor_callback, updateTitle_callback,
    updateNote_callback, repairCanvas.
  rewrite Hcanvas. simpl. by rewrite insert_empty.
Qed.

(** *** Element ids and tags *)

Lemma canvasElements_changeDoc (callback : SketchDoc → SketchDoc)
    (st : Store) (d : Automerge.Doc) :
  currentDoc st = Some d →
  canvasElements (changeDoc save callback st)
    = match canvas (callback d) with Some c => elements c | None => [] end.
Proof.
  intros Hcur. unfold canvasElements.
  by rewrite (changeDoc_currentDoc _ st d Hcur).
Qed.

(** The assignment of [updateNote] keeps the id and the tag of every
    element, position by position. *)
Lemma updateNote_callback_identity (id txt : string) (now : Z) (c : Canvas) :
  match canvas (updateNote_callback id txt now {| canvas := Some c |}) with
  | Some c' => identity <$> elements c' = identity <$> elements c
  | None => False
  end.
Proof.
  unfold updateNote_callback. simpl.
  destruct (list_find (isNoteWithId id) (elements c)) as [[i [s|n]]|] eqn:Hfind;
    simpl; try done.
  apply list_find_Some in Hfind as (Hi & _ & _).
  rewrite list_fmap_insert. apply list_insert_id.
  by rewrite list_lookup_fmap, Hi.
Qed.

(** One mutation on an initialised store: the guard and the canvas stay,
    the ids are the previous ones followed by the id drawn, if any, and the
    id and tag of each earlier element are kept. *)
Lemma mutate_step (m : Mutation) (st : Store) :
  notInitialized (doc st) = false →
  notInitialized (currentDoc st) = false →
  notInitialized (doc (mutate save m st)) = false
  ∧ notInitialized (currentDoc (mutate save m st)) = false
  ∧ element_id <$> canvasElements (mutate save m st)
      = (element_id <$> canvasElements st) ++ generatedIds [m]
  ∧ (identity <$> canvasElements st)
      `prefix_of` (identity <$> canvasElements (mutate save m st)).
Proof.
  intros Hguard Hcell.
  destruct (currentDoc st) as [[[c|]]|] eqn:Hcur; try done.
  assert (∀ cb, doc (changeDoc save cb st) = doc st) as Hdoc.
  { intros cb. by destruct (changeDoc_frame cb st _ Hcur) as (_ & ? & _). }
  assert (canvasElements st = elements c) as Hels.
  { unfold canvasElements. by rewrite Hcur. }
  rewrite Hels.
  destruct m; unfold mutate, addStroke, addNote, updateNote, updateTitle,
    updateCursor; rewrite Hguard, Hdoc, Hguard;
    rewrite (canvasElements_changeDoc _ st _ Hcur),
      (changeDoc_currentDoc _ st _ Hcur);
    (split; [done|]).
  - split; [done|]. simpl. rewrite !fmap_app.
    split; [done|]. by apply prefix_app_r.
  - split; [done|]. simpl. rewrite !fmap_app.
    split; [done|]. by apply prefix_app_r.
  - pose proof (updateNote_callback_identity id txt now c) as Hsame.
    destruct (updateNote_callback id txt now {| canvas := Some c |})
      as [[c'|]]; [|done].
    split; [done|]. simpl in *. rewrite Hsame. unfold generatedIds. simpl.
    rewrite app_nil_r. split; [|done].
    apply (f_equal (fmap fst)) in Hsame.
    by rewrite <-!list_fmap_compose in Hsame.
  - split; [done|]. unfold generatedIds. simpl. by rewrite app_nil_r.
  - split; [done|]. unfold generatedIds. simpl. by rewrite app_nil_r.
Qed.

(** Whatever the state of the store, one mutation keeps the id and tag of
    each element that was there. *)
Lemma mutate_keeps_identity (m : Mutation) (st : Store) :
  (identity <$> canvasElements st)
    `prefix_of` (identity <$> canvasElements (mutate save m st)).
Proof.
  destruct (notInitialized (doc st)) eqn:Hguard.
  { by destruct m; unfold mutate, addStroke, addNote, updateNote, updateTitle,
      updateCursor; rewrite Hguard. }
  destruct (notInitialized (currentDoc st)) eqn:Hcell.
  - destruct (currentDoc st) as [[[c|]]|] eqn:Hcur; try done.
    + unfold canvasElements at 1. rewrite Hcur. apply prefix_nil.
    + by destruct m; unfold mutate, addStroke, addNote, updateNote,
        updateTitle, updateCursor; rewrite Hguard, changeDoc_absent.
  - by apply mutate_step.
Qed.

(** C8, as amended.  Over any sequence of local mutations: the id and the
    type tag of every element present before are kept, position by
    position; and on an initialised store the ids afterwards are the ids
    before followed, in order, by [generateId] of the random draw of each
    [addStroke] and [addNote], so they are pairwise distinct exactly when
    those strings are. *)
Theorem element_ids_come_from_the_draws (ms : list Mutation) (st : Store) :
  (identity <$> canvasElements st)
    `prefix_of` (identity <$> canvasElements (mutateAll save ms st))
  ∧ (notInitialized (doc st) = false →
     notInitialized (currentDoc st) = false →
     element_id <$> canvasElements (mutateAll save ms st)
       = (element_id <$> canvasElements st) ++ generatedIds ms
     ∧ (NoDup (element_id <$> canvasElements (mutateAll save ms st))
        ↔ NoDup ((element_id <$> canvasElements st) ++ generatedIds ms))).
Proof.
  split.
  - revert st. induction ms as [|m ms IH]; intros st; [done|].
    unfold mutateAll in *. simpl.
    etrans; [apply (mutate_keeps_identity m)|apply IH].
  - assert (∀ st, notInitialized (doc st) = false →
              notInitialized (currentDoc st) = false →
              element_id <$> canvasElements (mutateAll save ms st)
                = (element_id <$> canvasElements st) ++ generatedIds ms)
      as Hids.
    { induction ms as [|m ms IH]; intros st' Hguard Hcell.
      - unfold generatedIds. simpl. by rewrite app_nil_r.
      - destruct (mutate_step m st' Hguard Hcell) as (Hg & Hc & Hstep & _).
        rewrite (generatedIds_cons m ms). unfold mutateAll in *. simpl.
        by rewrite (IH _ Hg Hc), Hstep, app_assoc. }
    intros Hguard Hcell. by rewrite (Hids st Hguard Hcell).
Qed.

End StoreProperties.

(** ** Presence *)

(** C5.  The live set is computed from the cursors mapping, the current
    user id and the current time alone: an entry is live exactly when it is
    in the mapping, its key is not the current user id and its [lastActive]
    is less than 10000 ms old.  So the current user's entry is never live,
    an entry 11 s old is not live, and another user's entry 9 s old is
    live.  The filter returns a list and every live entry is an entry of
    the mapping it was given; the mapping itself is only read. *)
Theorem activeCursors_is_the_live_set (cs : gmap string Cursor)
    (currentUserId : string) (now : Z) :
  (∀ (uid : string) (c : Cursor),
     (uid, c) ∈ activeCursors currentUserId now cs
     ↔ cs !! uid = Some c ∧ uid ≠ currentUserId
       ∧ (now - lastActive c < 10000)%Z)
  ∧ (∀ c : Cursor, (currentUserId, c) ∉ activeCursors currentUserId now cs)
  ∧ (∀ (uid : string) (c : Cursor),
       cs !! uid = Some c → lastActive c = (now - 11000)%Z →
       (uid, c) ∉ activeCursors currentUserId now cs)
  ∧ (∀ (uid : string) (c : Cursor),
       cs !! uid = Some c → uid ≠ currentUserId →
       lastActive c = (now - 9000)%Z →
       (uid, c) ∈ activeCursors currentUserId now cs)
  ∧ (∀ entry, entry ∈ activeCursors currentUserId now cs →
       entry ∈ map_to_list cs).
Proof.
  assert (∀ uid c,
            (uid, c) ∈ activeCursors currentUserId now cs
            ↔ cs !! uid = Some c ∧ uid ≠ currentUserId
              ∧ (now - lastActive c < 10000)%Z) as Hlive.
  { intros uid c. unfold activeCursors, otherUserCursors.
    rewrite !list_elem_of_filter, elem_of_map_to_list. simpl. tauto. }
  split; [exact Hlive|]. split; [|split; [|split]].
  - intros c (_ & Hne & _)%Hlive. done.
  - intros uid c _ Hold (_ & _ & Hfresh)%Hlive. lia.
  - intros uid c Hin Hne Hage. apply Hlive. repeat split; [done..|lia].
  - intros [uid c] (Hin & _)%Hlive. by apply elem_of_map_to_list.
Qed.

(** * The theorems at concrete inputs *)

Lemma undecodable_payload_keeps_document_witness :
  Sample.load [Byte.xff; Byte.x00] = None
  ∧ onmessage Sample.load Sample.merge (ArrayBuffer [Byte.xff; Byte.x00])
      (Sample.editing "alice" (Some OPEN))
    = Sample.editing "alice" (Some OPEN).
Proof.
  split; [reflexivity|].
  apply (undecodable_payload_keeps_document Sample.load Sample.merge
           (Sample.editing "alice" (Some OPEN)) [Byte.xff; Byte.x00]).
  reflexivity.
Defined.

Lemma onclose_arms_one_reconnect_unless_clean_witness :
  timeouts (onclose 1000 (Sample.replica "alice" (Some CLOSED))) = []
  ∧ timeouts (onclose 1006 (Sample.replica "alice" (Some CLOSED)))
    = [(5000%Z, attemptReconnect)].
Proof.
  split.
  - apply (onclose_arms_one_reconnect_unless_clean 1000
             (Sample.replica "alice" (Some CLOSED))).
    reflexivity.
  - apply (onclose_arms_one_reconnect_unless_clean 1006
             (Sample.replica "alice" (Some CLOSED))).
    lia.
Defined.

Lemma mutations_return_at_once_when_not_initialized_witness :
  addStroke Sample.save [(0, 0)%Z] "#000000" 3 "0.4fzyo82mvyr" 1000
    (Sample.degraded "alice")
  = Sample.degraded "alice".
Proof.
  apply (mutations_return_at_once_when_not_initialized Sample.save
           (Sample.degraded "alice") 0 0 1000 3 [(0, 0)%Z]
           "#000000" "0.4fzyo82mvyr" "x" "n1" "t" {| x := 0; y := 0 |}).
  reflexivity.
Defined.

Lemma addStroke_appends_one_stroke_witness :
  currentDoc (addStroke Sample.save [(7, 7)%Z] "#ff0000" 2 "0.4fzyo82mvyr"
                2000 (Sample.editing "alice" None))
  = Some {| canvas := Some
              {| elements :=
                   [Stroke Sample.stroke1; Note Sample.note1;
                    Stroke {| stroke_id := "4fzyo82mvyr";
                              points := [(7, 7)%Z]; stroke_color := "#ff0000";
                              width := 2; stroke_creator := "alice";
                              stroke_timestamp := 2000 |}];
                 cursors := cursors Sample.sketch;
                 title := "Plan" |} |}.
Proof.
  apply (addStroke_appends_one_stroke Sample.save
           (Sample.editing "alice" None) {| canvas := Some Sample.sketch |}
           Sample.sketch [(7, 7)%Z] "#ff0000" 2 "0.4fzyo82mvyr" 2000);
    reflexivity.
Defined.

Lemma updateCursor_upserts_own_entry_witness :
  ∃ c' : Canvas,
    currentDoc (updateCursor Sample.save 8 9 2000
                  (Sample.editing "bob" (Some OPEN)))
      = Some {| canvas := Some c' |}
    ∧ cursors c' !! "bob"
        = Some {| position := {| x := 8; y := 9 |}; lastActive := 2000 |}
    ∧ elements c' = elements Sample.sketch
    ∧ title c' = "Plan".
Proof.
  destruct (updateCursor_upserts_own_entry Sample.save
              (Sample.editing "bob" (Some OPEN))
              {| canvas := Some Sample.sketch |} Sample.sketch 8 9 2000
              eq_refl eq_refl eq_refl)
    as (c' & Hdoc & _ & Hown & _ & _ & Hels & Htitle).
  exists c'. repeat split; assumption.
Defined.

Lemma updateNote_sets_text_of_the_note_witness :
  ∃ (i : nat) (n : NoteElement),
    elements Sample.sketch !! i = Some (Note n)
    ∧ note_id n = "n1"
    ∧ currentDoc (updateNote Sample.save "n1" "x" 3000
                    (updateNote Sample.save "n1" "x" 2000
                       (Sample.editing "alice" None)))
      = Some {| canvas := Some
                  {| elements :=
                       <[i := Note {| note_id := note_id n; text := "x";
                                      note_position := note_position n;
                                      note_color := note_color n;
                                      note_creator := note_creator n;
                                      note_timestamp := 3000 |}]>
                         (elements Sample.sketch);
                     cursors := cursors Sample.sketch;
                     title := title Sample.sketch |} |}.
Proof.
  destruct (updateNote_sets_text_of_the_note Sample.save
              (Sample.editing "alice" None)
              {| canvas := Some Sample.sketch |} Sample.sketch
              "n1" "x" 2000 3000 eq_refl eq_refl eq_refl)
    as [Hfound _].
  destruct Hfound as (i & n & Hi & Hid & _ & _ & Htwice).
  - exists (Note Sample.note1). split; [|split; reflexivity].
    right. left.
  - exists i, n. repeat split; assumption.
Defined.

Lemma mutations_on_a_document_without_canvas_witness :
  currentDoc (updateTitle Sample.save "Plan" (Sample.stale "alice"))
    = Some {| canvas := Some
                {| elements := []; cursors := ∅; title := "Plan" |} |}
  ∧ updateTitle Sample.save "Plan" (Sample.degraded "alice")
    = Sample.degraded "alice".
Proof.
  split.
  - apply (mutations_on_a_document_without_canvas Sample.save
             (Sample.stale "alice") Automerge.init 0 0 1000 3 [(0, 0)%Z]
             "#000000" "0.4fzyo82mvyr" "x" "n1" "Plan" {| x := 0; y := 0 |}
             eq_refl eq_refl).
    reflexivity.
  - apply (mutations_on_a_document_without_canvas Sample.save
             (Sample.degraded "alice") Automerge.init 0 0 1000 3 [(0, 0)%Z]
             "#000000" "0.4fzyo82mvyr" "x" "n1" "Plan" {| x := 0; y := 0 |}
             eq_refl eq_refl).
    reflexivity.
Defined.

Lemma element_ids_come_from_the_draws_witness :
  element_id <$> canvasElements
    (mutateAll Sample.save
       [AddStroke [(7, 7)%Z] "#ff0000" 2 "0.4fzyo82mvyr" 2000;
        UpdateNote "n1" "x" 2100;
        AddNote "todo" {| x := 1; y := 2 |} "#ffff88" "0.i9k2mq7x1c" 2200]
       (Sample.editing "alice" None))
  = (element_id <$> canvasElements (Sample.editing "alice" None))
    ++ ["4fzyo82mvyr"; "i9k2mq7x1c"].
Proof.
  apply (element_ids_come_from_the_draws Sample.save
           [AddStroke [(7, 7)%Z] "#ff0000" 2 "0.4fzyo82mvyr" 2000;
            UpdateNote "n1" "x" 2100;
            AddNote "todo" {| x := 1; y := 2 |} "#ffff88" "0.i9k2mq7x1c" 2200]
           (Sample.editing "alice" None));
    reflexivity.
Defined.

Lemma activeCursors_is_the_live_set_witness :
  ("ann", {| position := {| x := 1; y := 1 |}; lastActive := 11000 |})
    ∈ activeCursors "me" 20000 Sample.presence.
Proof.
  apply (activeCursors_is_the_live_set Sample.presence "me" 20000).
  - vm_compute. reflexivity.
  - discriminate.
  - reflexivity.
Defined.

Lemma decodable_payload_leaves_no_document_witness :
  mergeIncoming Sample.load Sample.merge [Byte.x01]
    (Some {| canvas := Some Sample.sketch |}) = None.
Proof.
  apply (decodable_payload_leaves_no_document Sample.load Sample.merge
           {| canvas := Some Sample.sketch |} [Byte.x01]).
  exists emptyDoc. reflexivity.
Defined.

(** * Where the claims as written fail *)

(** C3: with no canvas in the document the hook holds, the five mutations
    leave the document without a canvas and drop the change; and
    [updateNote] does not repair even when its guard passes. *)
Lemma no_repair_behind_the_guard :
  currentDoc (addStroke Sample.save [(0, 0)%Z] "#000000" 3 "0.4fzyo82mvyr"
                1000 (Sample.degraded "alice")) = Some Automerge.init
  ∧ currentDoc (addNote Sample.save "todo" {| x := 1; y := 2 |} "#ffff88"
                  "0.4fzyo82mvyr" 1000 (Sample.degraded "alice"))
    = Some Automerge.init
  ∧ currentDoc (updateCursor Sample.save 8 9 1000 (Sample.degraded "alice"))
    = Some Automerge.init
  ∧ currentDoc (updateTitle Sample.save "Plan" (Sample.degraded "alice"))
    = Some Automerge.init
  ∧ currentDoc (updateNote Sample.save "n1" "x" 1000 (Sample.degraded "alice"))
    = Some Automerge.init
  ∧ notInitialized (doc (Sample.stale "alice")) = false
  ∧ currentDoc (updateNote Sample.save "n1" "x" 1000 (Sample.stale "alice"))
    = Some Automerge.init
  ∧ canvas Automerge.init = None.
Proof. repeat split; reflexivity. Qed.

(** C8: two creations that draw the same random number get the same id, on
    one replica and across two. *)
Lemma equal_draws_give_equal_ids :
  element_id <$> canvasElements
    (mutateAll Sample.save
       [AddStroke [(7, 7)%Z] "#ff0000" 2 "0.4fzyo82mvyr" 2000;
        AddNote "todo" {| x := 1; y := 2 |} "#ffff88" "0.4fzyo82mvyr" 2200]
       (Sample.replica "alice" None))
  = ["4fzyo82mvyr"; "4fzyo82mvyr"]
  ∧ element_id <$> canvasElements
      (addStroke Sample.save [(1, 1)%Z] "#00ff00" 5 "0.4fzyo82mvyr" 2300
         (Sample.replica "bob" (Some OPEN)))
    = ["4fzyo82mvyr"].
Proof. split; reflexivity. Qed.

(** * More properties of the store and of the views *)

(** ** Identity *)

Lemma substring_length (n m : nat) (s : string) :
  String.length (String.substring n m s) = Nat.min m (String.length s - n).
Proof.
  revert n m. induction s as [|c s IH]; intros [|n] [|m]; simpl;
    rewrite ?IH; try done; lia.
Qed.

Lemma length_zero_empty (s : string) : String.length s = 0 ↔ s = "".
Proof. destruct s; simpl; split; done. Qed.

Lemma generateId_empty (random36 : string) :
  generateId random36 = "" ↔ String.length random36 ≤ 2.
Proof.
  unfold generateId. rewrite <-length_zero_empty, substring_length. lia.
Qed.

(** X4.  An id has at most 13 characters: as many as the rendering of the
    draw has after its first two, up to 13.  It is empty exactly when the
    rendering has no third character (as ["0"] has none). *)
Theorem generateId_length (random36 : string) :
  String.length (generateId random36)
    = Nat.min 13 (String.length random36 - 2)
  ∧ (generateId random36 = "" ↔ String.length random36 ≤ 2).
Proof.
  split; [apply substring_length|apply generateId_empty].
Qed.

Lemma truthy_true (s : string) : truthy s = true ↔ s ≠ "".
Proof. destruct s; simpl; split; done. Qed.

(** X2.  Once a start has produced a non-empty id, every later start over the
    storage it left returns the same id and leaves the storage as it is,
    whatever is drawn; the id is what the storage holds under
    ["tinyfoot_userId"], and no other key of the storage is written. *)
Theorem initUserId_persists (random36 random36' : string)
    (localStorage : gmap string string) :
  (initUserId random36 localStorage).1 ≠ "" →
  initUserId random36' (initUserId random36 localStorage).2
    = initUserId random36 localStorage
  ∧ (initUserId random36 localStorage).2 !! "tinyfoot_userId"
      = Some (initUserId random36 localStorage).1
  ∧ ∀ k : string, k ≠ "tinyfoot_userId" →
      (initUserId random36 localStorage).2 !! k = localStorage !! k.
Proof.
  unfold initUserId.
  destruct (localStorage !! "tinyfoot_userId") as [saved|] eqn:Hsaved;
    [destruct (truthy saved) eqn:Htruthy|]; simpl; intros Hne.
  - rewrite Hsaved, Htruthy. by repeat split.
  - rewrite lookup_insert_eq. apply truthy_true in Hne. rewrite Hne.
    repeat split. intros k Hk. by rewrite lookup_insert_ne.
  - rewrite lookup_insert_eq. apply truthy_true in Hne. rewrite Hne.
    repeat split. intros k Hk. by rewrite lookup_insert_ne.
Qed.

(** X3.  When nothing usable is saved and the draw renders in at most two
    characters, the id is the empty string; it is saved, but an empty saved
    id is not used: the next start generates another one. *)
Theorem initUserId_empty_id_is_not_kept (random36 random36' : string)
    (localStorage : gmap string string) :
  localStorage !! "tinyfoot_userId" = None
    ∨ localStorage !! "tinyfoot_userId" = Some "" →
  String.length random36 ≤ 2 →
  (initUserId random36 localStorage).1 = ""
  ∧ (initUserId random36 localStorage).2 !! "tinyfoot_userId" = Some ""
  ∧ (initUserId random36' (initUserId random36 localStorage).2).1
      = generateId random36'.
Proof.
  intros Hsaved Hshort.
  assert (generateId random36 = "") as Hid by by apply generateId_empty.
  unfold initUserId. rewrite Hid.
  destruct Hsaved as [-> | ->]; simpl; by rewrite !lookup_insert_eq.
Qed.

(** ** The repair effect and [resetDocument] *)

(** A hook is at rest when the effect has nothing to do: its state cell
    holds a document with a canvas, or the three attempts are used up. *)
Lemma commit_at_rest (h : Hook) :
  notInitialized (currentDoc (store h)) = false
    ∨ 3 ≤ initializationAttempts h →
  commit h = inStore render h.
Proof.
  intros Hrest. unfold commit, ensureInitialized. simpl.
  destruct Hrest as [-> | Hle]; [done|].
  rewrite (proj2 (Nat.ltb_ge _ _) Hle). by rewrite andb_false_r.
Qed.

Lemma commit_comes_to_rest (h : Hook) :
  notInitialized (currentDoc (store (commit h))) = false
    ∨ 3 ≤ initializationAttempts (commit h).
Proof.
  unfold commit, ensureInitialized. simpl.
  destruct (notInitialized (currentDoc (store h))) eqn:Hcur; simpl;
    [|by left].
  destruct (initializationAttempts h <? 3) eqn:Ha; simpl.
  - by left.
  - right. by apply Nat.ltb_ge.
Qed.

(** Two renders settle the hook: a third one changes nothing. *)
Lemma commit_settled (h : Hook) : commit (commit (commit h)) = commit (commit h).
Proof.
  pose proof (commit_comes_to_rest h) as Hrest.
  rewrite (commit_at_rest (commit h) Hrest).
  by rewrite (commit_at_rest (inStore render (commit h)) Hrest).
Qed.

Section ViewProperties.

Context (save : Automerge.Doc → list Byte.byte).
Context (load : list Byte.byte → option Automerge.Doc).
Context (merge : Automerge.Doc → Automerge.Doc → Automerge.Doc).

(** One frame that loads, seen through to the settled hook: the document
    is gone after the handler, and the effect puts the empty canvas in its
    place only while fewer than three attempts have been counted. *)
Lemma receiveAndSettle_decodable (binary : list Byte.byte) (h : Hook) :
  is_Some (load binary) →
  currentDoc (store (receiveAndSettle load merge binary h))
    = (if initializationAttempts h <? 3 then Some emptyDoc else None)
  ∧ doc (store (receiveAndSettle load merge binary h))
    = currentDoc (store (receiveAndSettle load merge binary h))
  ∧ initializationAttempts (receiveAndSettle load merge binary h)
    = (if initializationAttempts h <? 3 then initializationAttempts h + 1
       else initializationAttempts h).
Proof.
  intros [incoming Hload].
  destruct h as [[u d cur con ws snt tms] a e].
  unfold receiveAndSettle, commit, ensureInitialized, inStore, onmessage.
  simpl. rewrite mergeIncoming_cases, Hload.
  assert ((match cur with Some _ => None | None => None end)
            = (None : option Automerge.Doc)) as -> by by destruct cur.
  simpl. by destruct (a <? 3) eqn:Ha; simpl; rewrite ?Ha.
Qed.

(** The run of the hook over frames that load. *)
Lemma receiveAndSettle_run (frames : list (list Byte.byte)) (h : Hook) :
  frames ≠ [] →
  Forall (λ binary, is_Some (load binary)) frames →
  initializationAttempts h ≤ 3 →
  initializationAttempts
    (foldl (λ cur binary, receiveAndSettle load merge binary cur) h frames)
    = Nat.min 3 (initializationAttempts h + length frames)
  ∧ currentDoc (store
      (foldl (λ cur binary, receiveAndSettle load merge binary cur) h frames))
    = (if bool_decide (initializationAttempts h + length frames ≤ 3)
       then Some emptyDoc else None)
  ∧ doc (store
      (foldl (λ cur binary, receiveAndSettle load merge binary cur) h frames))
    = currentDoc (store
      (foldl (λ cur binary, receiveAndSettle load merge binary cur) h frames)).
Proof.
  destruct frames as [|b rest]; [done|]. intros _.
  revert b h. induction rest as [|b' rest IH]; intros b h Hall Hle.
  - apply Forall_cons in Hall as [Hb _]. cbn [foldl length].
    destruct (receiveAndSettle_decodable b h Hb) as (Hcell & Hdoc & Hatt).
    rewrite Hcell, Hdoc, Hatt, Hcell.
    destruct (initializationAttempts h <? 3) eqn:Ha.
    + apply Nat.ltb_lt in Ha. rewrite bool_decide_eq_true_2 by lia.
      split; [lia|done].
    + apply Nat.ltb_ge in Ha. rewrite bool_decide_eq_false_2 by lia.
      split; [lia|done].
  - apply Forall_cons in Hall as [Hb Hall].
    destruct (receiveAndSettle_decodable b h Hb) as (_ & _ & Hatt).
    assert (initializationAttempts (receiveAndSettle load merge b h) ≤ 3) as Hle'.
    { rewrite Hatt. destruct (initializationAttempts h <? 3) eqn:Ha; [|lia].
      apply Nat.ltb_lt in Ha. lia. }
    specialize (IH b' (receiveAndSettle load merge b h) Hall Hle').
    change (foldl _ h (b :: b' :: rest))
      with (foldl (λ cur binary, receiveAndSettle load merge binary cur)
              (receiveAndSettle load merge b h) (b' :: rest)).
    destruct IH as (IHatt & IHcell & IHdoc).
    rewrite IHatt, IHcell, IHdoc, IHcell, Hatt. simpl length.
    destruct (initializationAttempts h <? 3) eqn:Ha.
    + apply Nat.ltb_lt in Ha. split; [lia|]. split; [|done].
      apply (f_equal (λ b : bool, if b then Some emptyDoc else None)).
      apply bool_decide_ext. lia.
    + apply Nat.ltb_ge in Ha. split; [lia|]. split; [|done].
      rewrite !bool_decide_eq_false_2 by lia. done.
Qed.

(** C1.  A snapshot that arrives is not merged into the document.  The
    handler stores element 0 of what [merge] returned, so for a hook that
    has counted no attempts and holds a document [D], and a frame [X] that
    loads: the handler leaves no document; once React has rendered and the
    initialisation effect has run, the document is the new empty canvas,
    whatever [D], [X] and [merge] are, and it still is after a second
    delivery of [X]; and [X] delivered four times leaves no document at
    all.  The same snapshot delivered once and delivered four times end in
    different documents, and neither is the merge of [D] and [X]. *)
Theorem received_snapshot_is_not_merged (h : Hook) (D : Automerge.Doc)
    (X : list Byte.byte) :
  initializationAttempts h = 0 →
  currentDoc (store h) = Some D →
  is_Some (load X) →
  currentDoc (onmessage load merge (ArrayBuffer X) (store h)) = None
  ∧ currentDoc (store (receiveAndSettle load merge X h)) = Some emptyDoc
  ∧ currentDoc (store
      (foldl (λ cur binary, receiveAndSettle load merge binary cur) h
             [X; X])) = Some emptyDoc
  ∧ currentDoc (store
      (foldl (λ cur binary, receiveAndSettle load merge binary cur) h
             [X; X; X; X])) = None.
Proof.
  intros Hfresh Hcur HX.
  assert (∀ frames, frames ≠ [] → Forall (λ binary, binary = X) frames →
            currentDoc (store
              (foldl (λ cur binary, receiveAndSettle load merge binary cur)
                     h frames))
            = (if bool_decide (length frames ≤ 3) then Some emptyDoc
               else None)) as Hrun.
  { intros frames Hne Hall.
    destruct (receiveAndSettle_run frames h Hne) as (_ & Hcell & _).
    - eapply Forall_impl; [exact Hall|]. by intros binary ->.
    - lia.
    - by rewrite Hcell, Hfresh. }
  split; [|split; [|split]].
  - unfold onmessage. simpl. rewrite Hcur, mergeIncoming_cases.
    by destruct HX as [incoming ->].
  - apply (Hrun [X]); [done|]. by repeat constructor.
  - apply (Hrun [X; X]); [done|]. by repeat constructor.
  - apply (Hrun [X; X; X; X]); [done|]. by repeat constructor.
Qed.

(** X5.  The hook on its own (as [Canvas], [UserCursors] and the other
    views than [Sketch] use it) repairs a lost document three times and no
    more: after [k ≥ 1] frames that load, each seen through to the settled
    hook, the store holds the empty canvas if the attempts counted before
    plus [k] do not exceed 3, and holds no document at all otherwise; the
    counter stops at 3. *)
Theorem repair_stops_after_three_attempts (frames : list (list Byte.byte))
    (h : Hook) :
  frames ≠ [] →
  Forall (λ binary, is_Some (load binary)) frames →
  initializationAttempts h ≤ 3 →
  initializationAttempts
    (foldl (λ cur binary, receiveAndSettle load merge binary cur) h frames)
    = Nat.min 3 (initializationAttempts h + length frames)
  ∧ currentDoc (store
      (foldl (λ cur binary, receiveAndSettle load merge binary cur) h frames))
    = (if bool_decide (initializationAttempts h + length frames ≤ 3)
       then Some emptyDoc else None)
  ∧ doc (store
      (foldl (λ cur binary, receiveAndSettle load merge binary cur) h frames))
    = currentDoc (store
      (foldl (λ cur binary, receiveAndSettle load merge binary cur) h frames)).
Proof. apply receiveAndSettle_run. Qed.

(** X23.  [resetDocument] always reports success and starts over: whatever
    the hook held, after it and a render the document is the empty canvas
    (every element, cursor and the title are gone), the error is cleared,
    nothing has been sent, and the attempt counter is back at 0, so that
    the next three frames that load are repaired again and the fourth is
    not. *)
Theorem resetDocument_starts_over (frames : list (list Byte.byte))
    (h : Hook) :
  (resetDocument h).1 = true
  ∧ currentDoc (store (commit (resetDocument h).2)) = Some emptyDoc
  ∧ doc (store (commit (resetDocument h).2)) = Some emptyDoc
  ∧ initializationAttempts (commit (resetDocument h).2) = 0
  ∧ initializationError (commit (resetDocument h).2) = None
  ∧ sent (store (commit (resetDocument h).2)) = sent (store h)
  ∧ (frames ≠ [] →
     Forall (λ binary, is_Some (load binary)) frames →
     currentDoc (store
       (foldl (λ cur binary, receiveAndSettle load merge binary cur)
              (commit (resetDocument h).2) frames))
     = (if bool_decide (length frames ≤ 3) then Some emptyDoc else None)).
Proof.
  repeat (split; [done|]). intros Hne Hall.
  destruct (receiveAndSettle_run frames (commit (resetDocument h).2) Hne Hall)
    as (_ & Hcell & _); [simpl; lia|].
  exact Hcell.
Qed.

(** Two renders settle [Sketch] too. *)
Lemma sketchCommit_settled (h : Hook) (ss : SketchState) :
  sketchCommit (sketchCommit (sketchCommit h ss).1 (sketchCommit h ss).2).1
               (sketchCommit (sketchCommit h ss).1 (sketchCommit h ss).2).2
  = sketchCommit (sketchCommit h ss).1 (sketchCommit h ss).2.
Proof.
  destruct h as [[u d cur con ws snt tms] a e]. destruct ss as [l t ed ra].
  unfold sketchCommit, commit, ensureInitialized, mirrorEffect, titleEffect,
    resetDocument, inStore.
  destruct cur as [[[c|]]|]; simpl; try done;
    destruct (a <? 3) eqn:Ha; repeat (progress (simpl; rewrite ?Ha)); done.
Qed.

(** X6.  In [Sketch] the mirror effect calls [resetDocument] whenever the
    rendered document is undefined, which also puts the attempt counter
    back to 0.  So there every frame that loads ends with the empty canvas
    in the store and in [localDoc], the default title in the title input
    and a counter of 0, whatever the sketch held before and however many
    frames came. *)
Theorem sketch_is_emptied_by_every_decodable_frame
    (frames : list (list Byte.byte)) (h : Hook) (ss : SketchState) :
  frames ≠ [] →
  Forall (λ binary, is_Some (load binary)) frames →
  currentDoc (store
    (foldl (λ acc binary, sketchReceive load merge binary acc.1 acc.2)
           (h, ss) frames).1) = Some emptyDoc
  ∧ doc (store
    (foldl (λ acc binary, sketchReceive load merge binary acc.1 acc.2)
           (h, ss) frames).1) = Some emptyDoc
  ∧ initializationAttempts
    (foldl (λ acc binary, sketchReceive load merge binary acc.1 acc.2)
           (h, ss) frames).1 = 0
  ∧ localDoc
    (foldl (λ acc binary, sketchReceive load merge binary acc.1 acc.2)
           (h, ss) frames).2 = Some emptyDoc
  ∧ titleInput
    (foldl (λ acc binary, sketchReceive load merge binary acc.1 acc.2)
           (h, ss) frames).2 = "Untitled Sketch".
Proof.
  assert (∀ b h ss, is_Some (load b) →
            let r := sketchReceive load merge b h ss in
            currentDoc (store r.1) = Some emptyDoc
            ∧ doc (store r.1) = Some emptyDoc
            ∧ initializationAttempts r.1 = 0
            ∧ localDoc r.2 = Some emptyDoc
            ∧ titleInput r.2 = "Untitled Sketch") as Hstep.
  { intros b [[u d cur con ws snt tms] a e] [l t ed ra] [incoming Hload].
    unfold sketchReceive, sketchCommit, commit, ensureInitialized,
      mirrorEffect, titleEffect, resetDocument, inStore, onmessage.
    simpl. rewrite mergeIncoming_cases, Hload.
    assert ((match cur with Some _ => None | None => None end)
              = (None : option Automerge.Doc)) as -> by by destruct cur.
    simpl. by destruct (a <? 3). }
  intros Hne Hall. revert h ss.
  induction frames as [|b rest IH]; [done|]. intros h ss.
  apply Forall_cons in Hall as [Hb Hall]. simpl.
  destruct rest as [|b' rest].
  - simpl. by apply Hstep.
  - destruct (sketchReceive load merge b h ss) as [h1 ss1]. by apply IH.
Qed.

End ViewProperties.

Section MoreStoreProperties.

Context (save : Automerge.Doc → list Byte.byte).
Context (load : list Byte.byte → option Automerge.Doc).
Context (merge : Automerge.Doc → Automerge.Doc → Automerge.Doc).

(** Behind the guard every mutation is the shared updater run on its own
    callback. *)
Lemma mutate_changeDoc (m : Mutation) (st : Store) :
  notInitialized (doc st) = false →
  mutate save m st = changeDoc save (mutationCallback (userId st) m) st.
Proof.
  intros Hguard.
  destruct m; unfold mutate, addStroke, addNote, updateNote, updateTitle,
    updateCursor; by rewrite Hguard.
Qed.

Lemma mutate_not_initialized (m : Mutation) (st : Store) :
  notInitialized (doc st) = true → mutate save m st = st.
Proof.
  intros Hguard.
  destruct m; unfold mutate, addStroke, addNote, updateNote, updateTitle,
    updateCursor; by rewrite Hguard.
Qed.

(** Whatever the state, a mutation leaves the user id, the rendered
    document, the connection flag, the socket and the timers alone. *)
Lemma mutate_frame (m : Mutation) (st : Store) :
  userId (mutate save m st) = userId st
  ∧ doc (mutate save m st) = doc st
  ∧ connected (mutate save m st) = connected st
  ∧ wsRef (mutate save m st) = wsRef st
  ∧ timeouts (mutate save m st) = timeouts st.
Proof.
  destruct (notInitialized (doc st)) eqn:Hguard.
  { by rewrite mutate_not_initialized. }
  rewrite mutate_changeDoc by done.
  destruct (currentDoc st) as [d|] eqn:Hcur.
  - by destruct (changeDoc_frame save (mutationCallback (userId st) m) st d Hcur)
      as (? & ? & ? & ? & ? & _).
  - by rewrite changeDoc_absent.
Qed.

(** ** Receiving *)

(** X7.  [ws.onmessage] writes the state cell and nothing else: it sends no
    frame, arms no timer and leaves the socket and the connection flag as
    they are.  A string frame, whatever it holds, and data of any other
    kind leave the store untouched. *)
Theorem onmessage_writes_only_the_state_cell (data : MessageData)
    (st : Store) :
  userId (onmessage load merge data st) = userId st
  ∧ doc (onmessage load merge data st) = doc st
  ∧ connected (onmessage load merge data st) = connected st
  ∧ wsRef (onmessage load merge data st) = wsRef st
  ∧ sent (onmessage load merge data st) = sent st
  ∧ timeouts (onmessage load merge data st) = timeouts st
  ∧ match data with
    | Text _ | Unknown => onmessage load merge data st = st
    | Blob binary | ArrayBuffer binary =>
        currentDoc (onmessage load merge data st)
          = mergeIncoming load merge binary (currentDoc st)
    end.
Proof. by destruct data. Qed.

(** X8.  A mutation called after a frame that loads has arrived, and before the
    next render, is dropped: the guard still sees the rendered document,
    but the state cell holds none, [clone] throws and the updater returns
    what it was given.  Nothing is sent. *)
Theorem mutation_after_a_decodable_frame_is_dropped (m : Mutation)
    (binary : list Byte.byte) (st : Store) :
  is_Some (load binary) →
  mutate save m (onmessage load merge (ArrayBuffer binary) st)
    = onmessage load merge (ArrayBuffer binary) st
  ∧ currentDoc (mutate save m (onmessage load merge (ArrayBuffer binary) st))
    = None.
Proof.
  intros [incoming Hload].
  assert (currentDoc (onmessage load merge (ArrayBuffer binary) st) = None)
    as Hcell.
  { simpl. rewrite mergeIncoming_cases, Hload. by destruct (currentDoc st). }
  assert (mutate save m (onmessage load merge (ArrayBuffer binary) st)
            = onmessage load merge (ArrayBuffer binary) st) as Hsame.
  { destruct (notInitialized
                (doc (onmessage load merge (ArrayBuffer binary) st)))
      eqn:Hguard.
    - by apply mutate_not_initialized.
    - rewrite mutate_changeDoc by done. by apply changeDoc_absent. }
  by rewrite Hsame.
Qed.

(** ** Closing *)

(** X9.  Over any run of close events there is no backoff and no cap: each event
    whose code is not 1000 adds one timer, always of 5000 ms, and the
    clean ones add none; the document is not touched. *)
Theorem every_abnormal_close_arms_its_own_timer (codes : list Z)
    (st : Store) :
  timeouts (foldl (λ cur code, onclose code cur) st codes)
    = timeouts st
      ++ ((λ _, (5000%Z, attemptReconnect))
            <$> filter (λ code, code ≠ 1000%Z) codes)
  ∧ currentDoc (foldl (λ cur code, onclose code cur) st codes) = currentDoc st
  ∧ wsRef (foldl (λ cur code, onclose code cur) st codes) = wsRef st
  ∧ sent (foldl (λ cur code, onclose code cur) st codes) = sent st.
Proof.
  revert st. induction codes as [|code codes IH]; intros st.
  - simpl. by rewrite app_nil_r.
  - cbn [foldl]. destruct (IH (onclose code st)) as (-> & -> & -> & ->).
    unfold onclose. rewrite filter_cons.
    case_bool_decide as Hcode.
    + rewrite decide_True by done. simpl. by rewrite <-app_assoc.
    + rewrite decide_False by (intros Hne; by apply Hne). done.
Qed.

(** X10.  The callback of the reconnect timer changes nothing in the store, for
    any state of the socket: after a close and its timer the connection
    flag is still [false] and the socket reference and the document are
    the ones from before the close. *)
Theorem reconnect_attempt_changes_nothing (code : Z) (st : Store) :
  run_attemptReconnect st = st
  ∧ run_attemptReconnect (onclose code st) = onclose code st
  ∧ connected (run_attemptReconnect (onclose code st)) = false
  ∧ wsRef (run_attemptReconnect (onclose code st)) = wsRef st
  ∧ currentDoc (run_attemptReconnect (onclose code st)) = currentDoc st
  ∧ doc (run_attemptReconnect (onclose code st)) = doc st.
Proof.
  assert (∀ s, run_attemptReconnect s = s) as Hnothing.
  { intros s. unfold run_attemptReconnect.
    destruct (wsRef s) as [[]|]; try done. apply set_currentDoc_same. }
  rewrite !Hnothing. unfold onclose. by case_bool_decide.
Qed.

End MoreStoreProperties.

Section MutationProperties.

Context (save : Automerge.Doc → list Byte.byte).

(** ** Notes and title *)

(** X11.  With a canvas in the document, [addNote] appends exactly one note with
    the given text, position and colour, the id made from the draw, the
    store's user id and the current time; the earlier elements, the cursors
    and the title stay.  The text may be empty: the store does not look at
    it. *)
Theorem addNote_appends_one_note (st : Store) (d : Automerge.Doc)
    (c : Canvas) (txt : string) (pos : Position) (color random36 : string)
    (now : Z) :
  notInitialized (doc st) = false →
  currentDoc st = Some d →
  canvas d = Some c →
  currentDoc (addNote save txt pos color random36 now st)
    = Some {| canvas := Some
                {| elements :=
                     elements c ++
                     [Note {| note_id := generateId random36; text := txt;
                              note_position := pos; note_color := color;
                              note_creator := userId st;
                              note_timestamp := now |}];
                   cursors := cursors c;
                   title := title c |} |}.
Proof.
  intros Hguard Hcur Hcanvas. unfold addNote. rewrite Hguard.
  rewrite (changeDoc_currentDoc save _ st d Hcur).
  unfold push_callback, repairCanvas, newNote. by rewrite Hcanvas.
Qed.

(** X12.  With a canvas in the document, [updateTitle] replaces the title and
    nothing else, and of two calls in a row the second one decides: the
    document is the one a single call with the second title gives. *)
Theorem updateTitle_last_call_decides (st : Store) (d : Automerge.Doc)
    (c : Canvas) (title1 title2 : string) :
  notInitialized (doc st) = false →
  currentDoc st = Some d →
  canvas d = Some c →
  currentDoc (updateTitle save title2 st)
    = Some {| canvas := Some {| elements := elements c;
                                cursors := cursors c;
                                title := title2 |} |}
  ∧ currentDoc (updateTitle save title2 (updateTitle save title1 st))
    = currentDoc (updateTitle save title2 st).
Proof.
  intros Hguard Hcur Hcanvas.
  assert (doc (updateTitle save title1 st) = doc st) as Hdoc.
  { apply (mutate_frame save (UpdateTitle title1) st). }
  unfold updateTitle in *. rewrite Hdoc, !Hguard.
  erewrite (changeDoc_currentDoc save _ (changeDoc save _ st))
    by (by apply changeDoc_currentDoc).
  rewrite (changeDoc_currentDoc save _ st d Hcur).
  unfold updateTitle_callback. by rewrite Hcanvas.
Qed.

(** ** What is sent *)

Lemma mutate_sent (m : Mutation) (st : Store) (d : Automerge.Doc) :
  notInitialized (doc st) = false →
  currentDoc st = Some d →
  ∃ d' : Automerge.Doc,
    currentDoc (mutate save m st) = Some d'
    ∧ sent (mutate save m st)
        = match wsRef st with
          | Some OPEN => sent st ++ [save d']
          | _ => sent st
          end.
Proof.
  intros Hguard Hcur. rewrite mutate_changeDoc by done.
  exists (mutationCallback (userId st) m d).
  split; [by apply changeDoc_currentDoc|].
  by destruct (changeDoc_frame save (mutationCallback (userId st) m) st d Hcur)
    as (_ & _ & _ & _ & _ & ?).
Qed.

(** X13.  Full state after every mutation: on a store whose guard passes and
    whose state cell holds a document, a run of mutations with the socket
    open sends one frame per mutation, also for an [updateNote] that finds
    no note, and the last frame sent is the saved current document; with
    no socket, or one that is not open, it sends nothing. *)
Theorem one_frame_per_mutation_while_open (ms : list Mutation) (st : Store) :
  notInitialized (doc st) = false →
  is_Some (currentDoc st) →
  (wsRef st = Some OPEN →
     length (sent (mutateAll save ms st)) = length (sent st) + length ms
     ∧ (ms ≠ [] →
          last (sent (mutateAll save ms st))
            = save <$> currentDoc (mutateAll save ms st)))
  ∧ (wsRef st ≠ Some OPEN → sent (mutateAll save ms st) = sent st).
Proof.
  revert st. induction ms as [|m ms IH] using rev_ind; intros st Hguard Hcur.
  { split; [|done]. intros _. simpl. split; [lia|done]. }
  assert (∀ ms' st', notInitialized (doc st') = false →
            is_Some (currentDoc st') →
            notInitialized (doc (mutateAll save ms' st')) = false
            ∧ is_Some (currentDoc (mutateAll save ms' st'))
            ∧ wsRef (mutateAll save ms' st') = wsRef st') as Hinv.
  { induction ms' as [|m' ms' IH']; intros st' Hg [d' Hc]; [by eauto|].
    unfold mutateAll in *. cbn [foldl].
    destruct (mutate_frame save m' st') as (_ & Hd & _ & Hw & _).
    destruct (mutate_sent m' st' d' Hg Hc) as (d'' & Hc' & _).
    destruct (IH' (mutate save m' st')) as (? & ? & ?);
      [by rewrite Hd|by eauto|]. by rewrite <-Hw. }
  destruct (Hinv ms st Hguard Hcur) as (Hguard' & [d' Hcur'] & Hws').
  destruct (IH st Hguard Hcur) as [IHopen IHclosed].
  unfold mutateAll in *. rewrite foldl_snoc.
  destruct (mutate_sent m _ d' Hguard' Hcur') as (d'' & Hcell & Hsent).
  rewrite Hsent, Hcell, Hws'. split.
  - intros Hopen. rewrite Hopen. destruct (IHopen Hopen) as [Hlen _].
    rewrite !length_app, Hlen. simpl. split; [lia|].
    intros _. by rewrite last_snoc.
  - intros Hclosed. rewrite <-(IHclosed Hclosed).
    by destruct (wsRef st) as [[]|].
Qed.

(** ** Cursors *)

(** The cursors of a document after a callback: every key other than the
    user's own reads as before, and the user's own key, once there, stays. *)
Lemma mutationCallback_cursors (user : string) (m : Mutation) (d : SketchDoc) :
  let before := match canvas d with Some c => cursors c | None => ∅ end in
  let after :=
    match canvas (mutationCallback user m d) with
    | Some c => cursors c
    | None => ∅
    end in
  (∀ k : string, k ≠ user → after !! k = before !! k)
  ∧ (is_Some (before !! user) → is_Some (after !! user)).
Proof.
  destruct d as [[c|]]; destruct m; simpl;
    unfold updateNote_callback; simpl;
    try (destruct (list_find (isNoteWithId id) (elements c))
           as [[i [s|n]]|]; simpl);
    try (split; [done|done]);
    (split; [intros k Hk; by rewrite lookup_insert_ne|
             intros _; rewrite lookup_insert_eq; by eauto]).
Qed.

(** X14.  No local mutation deletes a cursor or touches another user's: over any
    run of mutations, in any state of the store, every key other than the
    store's user id reads as before, and the user's own entry, once
    present, is still present. *)
Theorem mutations_never_delete_a_cursor (ms : list Mutation) (st : Store) :
  (∀ k : string, k ≠ userId st →
     canvasCursors (mutateAll save ms st) !! k = canvasCursors st !! k)
  ∧ (is_Some (canvasCursors st !! userId st) →
     is_Some (canvasCursors (mutateAll save ms st) !! userId st))
  ∧ dom (canvasCursors st) ⊆ dom (canvasCursors (mutateAll save ms st)).
Proof.
  assert (∀ m st,
            (∀ k, k ≠ userId st →
               canvasCursors (mutate save m st) !! k = canvasCursors st !! k)
            ∧ (is_Some (canvasCursors st !! userId st) →
               is_Some (canvasCursors (mutate save m st) !! userId st)))
    as Hstep.
  { intros m s. destruct (notInitialized (doc s)) eqn:Hguard.
    { by rewrite mutate_not_initialized. }
    rewrite mutate_changeDoc by done.
    destruct (currentDoc s) as [d|] eqn:Hcur.
    - unfold canvasCursors.
      rewrite (changeDoc_currentDoc save _ s d Hcur), Hcur.
      apply mutationCallback_cursors.
    - by rewrite changeDoc_absent. }
  assert ((∀ k : string, k ≠ userId st →
             canvasCursors (mutateAll save ms st) !! k = canvasCursors st !! k)
          ∧ (is_Some (canvasCursors st !! userId st) →
             is_Some (canvasCursors (mutateAll save ms st) !! userId st)))
    as [Hothers Hown].
  { revert st. induction ms as [|m ms IH]; intros st; [done|].
    unfold mutateAll in *. cbn [foldl].
    destruct (Hstep m st) as [Ho Hu].
    destruct (IH (mutate save m st)) as [IHo IHu].
    destruct (mutate_frame save m st) as (Huser & _).
    rewrite Huser in IHo, IHu. split.
    - intros k Hk. by rewrite IHo, Ho.
    - intros Hsome. by apply IHu, Hu. }
  split; [done|]. split; [done|].
  intros k [c Hk]%elem_of_dom. apply elem_of_dom.
  destruct (decide (k = userId st)) as [->|Hne].
  - apply Hown. by eauto.
  - rewrite Hothers by done. by eauto.
Qed.

End MutationProperties.

(** ** Presence, written and read *)

Lemma elem_of_activeCursors (cs : gmap string Cursor) (currentUserId : string)
    (now : Z) (uid : string) (c : Cursor) :
  (uid, c) ∈ activeCursors currentUserId now cs
  ↔ cs !! uid = Some c ∧ uid ≠ currentUserId
    ∧ (now - lastActive c < 10000)%Z.
Proof.
  unfold activeCursors, otherUserCursors.
  rewrite !list_elem_of_filter, elem_of_map_to_list. simpl. tauto.
Qed.

(** X16.  The live set holds at most one cursor per user; as long as nobody
    updates, it only loses entries as time passes; and [UserCursors] draws
    nothing at all exactly when the document it is given is absent or has no
    canvas. *)
Theorem live_set_only_shrinks_with_time (cs : gmap string Cursor)
    (currentUserId : string) (now now' : Z)
    (doc : option Automerge.Doc) :
  NoDup (activeCursors currentUserId now cs).*1
  ∧ ((now ≤ now')%Z →
     ∀ entry, entry ∈ activeCursors currentUserId now' cs →
              entry ∈ activeCursors currentUserId now cs)
  ∧ (UserCursors currentUserId now doc = None ↔ notInitialized doc = true).
Proof.
  split; [|split].
  - apply (sublist_NoDup _ (map_to_list cs).*1);
      [apply NoDup_fst_map_to_list|].
    apply fmap_sublist. unfold activeCursors, otherUserCursors.
    etrans; apply sublist_filter.
  - intros Hle [uid c] (Hin & Hne & Hage)%elem_of_activeCursors.
    apply elem_of_activeCursors. repeat split; [done..|lia].
  - unfold UserCursors, notInitialized.
    destruct doc as [[[c|]]|]; simpl; split; done.
Qed.

Section Heartbeat.

Context (save : Automerge.Doc → list Byte.byte).

(** X15.  What [updateCursor] writes at time [now] is what any other user reads
    as live until 10 s later and not after: for a reader with another id,
    the writer's cursor at the given position is in the live set computed
    at [now'] exactly when [now' - now < 10000], and the live set never
    shows an older cursor of the writer. *)
Theorem updated_cursor_is_live_for_ten_seconds (st : Store)
    (d : Automerge.Doc) (c : Canvas) (px py now now' : Z) (reader : string) :
  notInitialized (doc st) = false →
  currentDoc st = Some d →
  canvas d = Some c →
  reader ≠ userId st →
  ((userId st, {| position := {| x := px; y := py |}; lastActive := now |})
     ∈ activeCursors reader now'
         (canvasCursors (updateCursor save px py now st))
   ↔ (now' - now < 10000)%Z)
  ∧ ∀ seen : Cursor,
      (userId st, seen)
        ∈ activeCursors reader now'
            (canvasCursors (updateCursor save px py now st)) →
      seen = {| position := {| x := px; y := py |}; lastActive := now |}.
Proof.
  intros Hguard Hcur Hcanvas Hreader.
  assert (canvasCursors (updateCursor save px py now st)
            = <[userId st := {| position := {| x := px; y := py |};
                                lastActive := now |}]> (cursors c)) as ->.
  { unfold canvasCursors, updateCursor. rewrite Hguard.
    rewrite (changeDoc_currentDoc save _ st d Hcur).
    unfold updateCursor_callback, repairCanvas. by rewrite Hcanvas. }
  split.
  - rewrite elem_of_activeCursors, lookup_insert_eq. simpl.
    split; [tauto|]. intros Hage. repeat split; [congruence|done].
  - intros seen (Hin & _)%elem_of_activeCursors.
    rewrite lookup_insert_eq in Hin. congruence.
Qed.

End Heartbeat.

(** ** [StickyNote] *)

Lemma rotation_seed_nonneg (chars : list Ascii.ascii) (acc : Z) :
  (0 ≤ acc)%Z →
  (0 ≤ foldl (λ a char, (a + Z.of_nat (Ascii.nat_of_ascii char))%Z) acc chars)%Z.
Proof.
  revert acc. induction chars as [|char chars IH]; intros acc Hacc; [done|].
  simpl. apply IH. lia.
Qed.

(** X17.  The rotation of a note is a whole number of degrees from -5 to 4,
    whatever its id; 5 is never reached. *)
Theorem getRotation_range (id : string) : (-5 ≤ getRotation id ≤ 4)%Z.
Proof.
  unfold getRotation.
  pose proof (rotation_seed_nonneg (list_ascii_of_string id) 0 (Z.le_refl 0))
    as Hseed.
  pose proof (Z.rem_bound_pos _ 10 Hseed) as Hrem. lia.
Qed.

Section StickyNoteProperties.

Context (save : Automerge.Doc → list Byte.byte).

(** X18.  On a store with a canvas that holds the note (first of its id): when
    the text in the component differs from the note's, a blur writes the
    component's text into the note, whichever of the two is the newer one;
    when it is the same, a blur leaves the store alone, so nothing is sent
    and the timestamp stays.  [Enter] without shift writes in both cases,
    so with an unchanged text it still moves the timestamp; any other key,
    and [Enter] with shift, does nothing. *)
Theorem stickyNote_blur_and_enter (st : Store) (d : Automerge.Doc)
    (c : Canvas) (i : nat) (n : NoteElement) (cs : StickyNoteState)
    (e : KeyEvent) (now : Z) :
  notInitialized (doc st) = false →
  currentDoc st = Some d →
  canvas d = Some c →
  list_find (isNoteWithId (note_id n)) (elements c) = Some (i, Note n) →
  let written :=
    Some {| canvas := Some
              {| elements :=
                   <[i := Note (assignText (editedText cs) now n)]>
                     (elements c);
                 cursors := cursors c; title := title c |} |} in
  let storeUpdateNote := λ id txt, updateNote save id txt now in
  (editedText cs ≠ text n →
     currentDoc (handleBlur storeUpdateNote n cs st).2 = written)
  ∧ (editedText cs = text n →
     (handleBlur storeUpdateNote n cs st).2 = st)
  ∧ (key e = "Enter" → shiftKey e = false →
     currentDoc (handleKeyDown storeUpdateNote n e cs st).2 = written
     ∧ isEditing (handleKeyDown storeUpdateNote n e cs st).1 = false)
  ∧ (key e ≠ "Enter" ∨ shiftKey e = true →
     handleKeyDown storeUpdateNote n e cs st = (cs, st)).
Proof.
  intros Hguard Hcur Hcanvas Hfind written storeUpdateNote.
  assert (currentDoc (storeUpdateNote (note_id n) (editedText cs) st)
            = written) as Hwrite.
  { unfold storeUpdateNote, updateNote. rewrite Hguard.
    rewrite (changeDoc_currentDoc save _ st d Hcur).
    destruct d as [oc]. simpl in Hcanvas. subst oc.
    by rewrite (updateNote_callback_found c _ _ now i n Hfind). }
  unfold handleBlur, handleKeyDown. simpl. split; [|split; [|split]].
  - intros Hne. by rewrite bool_decide_eq_true_2.
  - intros Heq. rewrite bool_decide_eq_false_2; [done|]. by intros Hne.
  - intros Hkey Hshift. by rewrite bool_decide_eq_true_2, Hshift.
  - intros [Hkey|Hshift].
    + by rewrite bool_decide_eq_false_2.
    + rewrite Hshift. by rewrite andb_false_r.
Qed.

End StickyNoteProperties.

(** ** [ExportOptions] *)

(** X22.  The name of the downloaded file: there is one exactly when the document
    has a canvas (otherwise reading the title throws); it is the title
    followed by [".png"], and with an empty title it is
    ["untitled-sketch.png"], so the part before the extension is never
    empty. *)
Theorem downloadName_has_a_stem (doc : option Automerge.Doc) :
  (is_Some (downloadName doc) ↔ notInitialized doc = false)
  ∧ ∀ (d : Automerge.Doc) (c : Canvas),
      doc = Some d → canvas d = Some c →
      ∃ stem : string,
        downloadName doc = Some (stem +:+ ".png")
        ∧ stem ≠ ""
        ∧ (title c ≠ "" → stem = title c)
        ∧ (title c = "" → stem = "untitled-sketch").
Proof.
  split.
  - unfold downloadName, notInitialized.
    destruct doc as [[[c|]]|]; simpl; split; try done;
      by intros []; eauto.
  - intros d c -> Hcanvas. unfold downloadName. simpl. rewrite Hcanvas. simpl.
    destruct (title c) as [|ch rest] eqn:Htitle; simpl.
    + exists "untitled-sketch". by repeat split.
    + exists (String ch rest). by repeat split.
Qed.

(** ** [Canvas] *)

Section CanvasProperties.

Context (save : Automerge.Doc → list Byte.byte).

Lemma canvasElements_updateCursor (px py now : Z) (st : Store) :
  canvasElements (updateCursor save px py now st) = canvasElements st.
Proof.
  unfold updateCursor. destruct (notInitialized (doc st)); [done|].
  destruct (currentDoc st) as [d|] eqn:Hcur.
  - rewrite (canvasElements_changeDoc save _ st d Hcur).
    unfold canvasElements. rewrite Hcur.
    unfold updateCursor_callback, repairCanvas. simpl.
    by destruct (canvas d).
  - by rewrite changeDoc_absent.
Qed.

Lemma canvasElements_addStroke (pts : list Point) (color : string) (w : Z)
    (random36 : string) (now : Z) (st : Store) :
  canvasElements (addStroke save pts color w random36 now st)
    = canvasElements st
  ∨ canvasElements (addStroke save pts color w random36 now st)
    = canvasElements st ++ [newStroke (userId st) pts color w random36 now].
Proof.
  unfold addStroke. destruct (notInitialized (doc st)); [by left|].
  destruct (currentDoc st) as [d|] eqn:Hcur.
  - right. rewrite (canvasElements_changeDoc save _ st d Hcur).
    unfold canvasElements. rewrite Hcur.
    unfold push_callback, repairCanvas. simpl. by destruct (canvas d).
  - left. by rewrite changeDoc_absent.
Qed.

Lemma cursorInterval_userId (now : Z) (cs : CanvasState) (st : Store) :
  userId (cursorInterval save now cs st).2 = userId st.
Proof.
  unfold cursorInterval. destruct (cursorPosition cs); [|done].
  apply (mutate_frame save (UpdateCursor _ _ now)).
Qed.

Lemma cursorInterval_elements (now : Z) (cs : CanvasState) (st : Store) :
  canvasElements (cursorInterval save now cs st).2 = canvasElements st.
Proof.
  unfold cursorInterval. destruct (cursorPosition cs); [|done].
  apply canvasElements_updateCursor.
Qed.

Lemma canvasStep_userId (externalDoc : option Automerge.Doc)
    (ev : CanvasEvent) (cs : CanvasState) (st : Store) :
  userId (canvasStep save externalDoc ev cs st).2 = userId st.
Proof.
  destruct ev; simpl; try done.
  all: try (destruct (notInitialized (displayedDoc externalDoc st));
            [done|]).
  all: unfold handleMouseDown, handleMouseMove, handleMouseUp,
         handleMouseEnter, cursorEffect; simpl.
  - apply (mutate_frame save (UpdateCursor px py now)).
  - apply (mutate_frame save (UpdateCursor px py now)).
  - destruct (isDrawing cs && _); [|done].
    apply (mutate_frame save (AddStroke _ _ _ random36 now)).
  - destruct (isDrawing cs && _); [|done].
    apply (mutate_frame save (AddStroke _ _ _ random36 now)).
  - apply (mutate_frame save (UpdateCursor px py now)).
  - apply cursorInterval_userId.
  - destruct (notInitialized (displayedDoc externalDoc (render st))); [done|].
    by rewrite cursorInterval_userId.
Qed.

(** One event adds nothing, or one stroke that has at least one point and
    the store's user as creator. *)
Lemma canvasStep_elements (externalDoc : option Automerge.Doc)
    (ev : CanvasEvent) (cs : CanvasState) (st : Store) :
  ∃ added : list CanvasElement,
    canvasElements (canvasStep save externalDoc ev cs st).2
      = canvasElements st ++ added
    ∧ Forall (λ el, ∃ s, el = Stroke s ∧ points s ≠ []
                         ∧ stroke_creator s = userId st) added.
Proof.
  assert (∀ st' : Store,
            canvasElements st' = canvasElements st →
            ∃ added,
              canvasElements st' = canvasElements st ++ added
              ∧ Forall (λ el, ∃ s, el = Stroke s ∧ points s ≠ []
                                   ∧ stroke_creator s = userId st) added)
    as Hnothing.
  { intros st' ->. exists []. by rewrite app_nil_r. }
  assert (∀ random36 now,
            ∃ added,
              canvasElements (handleMouseUp save random36 now cs st).2
                = canvasElements st ++ added
              ∧ Forall (λ el, ∃ s, el = Stroke s ∧ points s ≠ []
                                   ∧ stroke_creator s = userId st) added)
    as Hup.
  { intros random36 now. unfold handleMouseUp.
    destruct (isDrawing cs); simpl; [|by apply Hnothing].
    case_bool_decide as Hlen; simpl; [|by apply Hnothing].
    destruct (canvasElements_addStroke (currentStroke cs) (color cs)
                (strokeWidth cs) random36 now st) as [Hsame | ->].
    - by apply Hnothing.
    - eexists. split; [done|]. apply Forall_singleton. eexists.
      split; [done|]. simpl. split; [|done].
      destruct (currentStroke cs); simpl in *; [lia|done]. }
  destruct ev; simpl.
  9: { apply Hnothing. unfold cursorEffect.
       destruct (notInitialized (displayedDoc externalDoc (render st)));
         [done|].
       by rewrite cursorInterval_elements. }
  all: try (destruct (notInitialized (displayedDoc externalDoc st)));
    try (by apply Hnothing); try apply Hup;
    unfold handleMouseDown, handleMouseMove, handleMouseEnter;
    simpl; apply Hnothing;
    first [apply canvasElements_updateCursor | apply cursorInterval_elements].
Qed.

(** X19.  Whatever the run of events, the views' state and the state of the
    store, [Canvas] only ever appends to the elements, and what it appends
    are strokes with at least one point, created by the store's user: it
    never adds an empty stroke and never changes or removes an element. *)
Theorem canvas_only_appends_nonempty_strokes
    (evs : list (option Automerge.Doc * CanvasEvent)) (cs : CanvasState)
    (st : Store) :
  ∃ added : list CanvasElement,
    canvasElements (canvasRun save evs cs st).2 = canvasElements st ++ added
    ∧ Forall (λ el, ∃ s, el = Stroke s ∧ points s ≠ []
                         ∧ stroke_creator s = userId st) added.
Proof.
  revert cs st. induction evs as [|[ext ev] evs IH]; intros cs st.
  { exists []. split; [|done]. simpl. by rewrite app_nil_r. }
  unfold canvasRun in *. cbn [foldl fst snd].
  destruct (canvasStep_elements ext ev cs st) as (added0 & Hels0 & Hall0).
  pose proof (canvasStep_userId ext ev cs st) as Huser.
  destruct (canvasStep save ext ev cs st) as [cs1 st1]. simpl in *.
  destruct (IH cs1 st1) as (added1 & Hels1 & Hall1).
  exists (added0 ++ added1). rewrite Hels1, Hels0, app_assoc.
  split; [done|]. apply Forall_app. split; [done|].
  by rewrite Huser in Hall1.
Qed.

(** *** A gesture, step by step *)

Lemma canvasRun_app (evs1 evs2 : list (option Automerge.Doc * CanvasEvent))
    (cs : CanvasState) (st : Store) :
  canvasRun save (evs1 ++ evs2) cs st
  = canvasRun save evs2 (canvasRun save evs1 cs st).1
      (canvasRun save evs1 cs st).2.
Proof.
  unfold canvasRun. rewrite foldl_app.
  by destruct (foldl _ (cs, st) evs1).
Qed.

Lemma canvasRun_cons (ext : option Automerge.Doc) (ev : CanvasEvent)
    (evs : list (option Automerge.Doc * CanvasEvent))
    (cs : CanvasState) (st : Store) :
  canvasRun save ((ext, ev) :: evs) cs st
  = canvasRun save evs (canvasStep save ext ev cs st).1
      (canvasStep save ext ev cs st).2.
Proof. unfold canvasRun. simpl. by destruct (canvasStep save ext ev cs st). Qed.

Lemma default_last_cons {A : Type} (d a : A) (l : list A) :
  default d (last (a :: l)) = default a (last l).
Proof.
  revert d a. induction l as [|b l IH]; intros d a; [done|].
  change (last (a :: b :: l)) with (last (b :: l)).
  by rewrite (IH d b), (IH a b).
Qed.

Lemma default_last_app {A : Type} (d : A) (l1 l2 : list A) :
  default d (last (l1 ++ l2)) = default (default d (last l1)) (last l2).
Proof.
  revert d. induction l1 as [|a l1 IH]; intros d; [done|].
  rewrite <-app_comm_cons, !default_last_cons. apply IH.
Qed.

Section Gesture.

Context (externalDoc : option Automerge.Doc) (user col ttl : string) (w : Z).
Context (others : gmap string Cursor).

(** The user's cursor is written at the place it already has: everything
    but the time of the entry stays. *)
Lemma updateCursor_inGesture (drawing : bool) (pts : list Point)
    (els : list CanvasElement) (pos : Position) (written : Z)
    (px py now : Z) (cs : CanvasState) (st : Store) :
  userId st = user →
  notInitialized (doc st) = false →
  currentDoc st
    = Some {| canvas := Some
                {| elements := els;
                   cursors := <[user := {| position := pos;
                                           lastActive := written |}]> others;
                   title := ttl |} |} →
  userId (updateCursor save px py now st) = user
  ∧ doc (updateCursor save px py now st) = doc st
  ∧ currentDoc (updateCursor save px py now st)
      = Some {| canvas := Some
                  {| elements := els;
                     cursors := <[user := {| position := {| x := px; y := py |};
                                             lastActive := now |}]> others;
                     title := ttl |} |}.
Proof.
  intros Huser Hguard Hcell. unfold updateCursor. rewrite Hguard.
  destruct (changeDoc_frame save
              (updateCursor_callback (userId st) px py now) st _ Hcell)
    as (-> & -> & _).
  rewrite (changeDoc_currentDoc save _ st _ Hcell), Huser.
  unfold updateCursor_callback, repairCanvas.
  cbn [canvas elements cursors title]. by rewrite insert_insert_eq.
Qed.

(** A render and the cursor effect after it: the cursor entry gets the
    time at which the effect ran. *)
Lemma rerender_inGesture (drawing : bool) (pts : list Point)
    (els : list CanvasElement) (pos : Position) (written now : Z)
    (r : CanvasState * Store) :
  inGesture externalDoc user col w others ttl drawing pts els pos written r →
  inGesture externalDoc user col w others ttl drawing pts els pos now
    (canvasStep save externalDoc (Rerender now) r.1 r.2).
Proof.
  destruct r as [cs st]. unfold inGesture. cbn [fst snd].
  intros (Hdraw & Hpts & Hcol & Hw & Hpos & Huser & Hshown & Hguard & Hcell).
  assert (notInitialized (doc (render st)) = false) as Hguard'.
  { simpl. by rewrite Hcell. }
  assert (notInitialized (displayedDoc externalDoc (render st)) = false)
    as Hshown'.
  { unfold displayedDoc in *. by destruct externalDoc. }
  unfold canvasStep, cursorEffect, cursorInterval.
  rewrite Hshown', Hpos. cbn [fst snd].
  destruct (updateCursor_inGesture drawing pts els pos written
              (x pos) (y pos) now cs (render st) Huser Hguard' Hcell)
    as (Hu & Hd & Hc).
  rewrite Hu, Hd, Hc. repeat (split; [done|]). split; [|split; [done|]].
  - unfold displayedDoc in *. destruct externalDoc; [done|]. by rewrite Hd.
  - by destruct pos.
Qed.

Lemma renders_inGesture (drawing : bool) (pts : list Point)
    (els : list CanvasElement) (pos : Position) (written : Z)
    (times : list Z) (r : CanvasState * Store) :
  inGesture externalDoc user col w others ttl drawing pts els pos written r →
  inGesture externalDoc user col w others ttl drawing pts els pos
    (default written (last times))
    (canvasRun save (rendersAt externalDoc times) r.1 r.2).
Proof.
  revert written r. induction times as [|t times IH]; intros written r Hr.
  { by destruct r. }
  unfold rendersAt. rewrite fmap_cons, canvasRun_cons, default_last_cons.
  apply (IH t). by apply (rerender_inGesture drawing pts els pos written t r).
Qed.

(** A move while drawing: one more point, and the cursor goes there. *)
Lemma move_inGesture (pts : list Point) (els : list CanvasElement)
    (pos : Position) (written : Z) (m : Move) (r : CanvasState * Store) :
  inGesture externalDoc user col w others ttl true pts els pos written r →
  inGesture externalDoc user col w others ttl true (pts ++ [(toX m, toY m)])
    els {| x := toX m; y := toY m |}
    (default (atTime m) (last (thenRenders m)))
    (canvasRun save
       ((externalDoc, MouseMove (toX m) (toY m) (atTime m))
        :: rendersAt externalDoc (thenRenders m)) r.1 r.2).
Proof.
  intros Hr. rewrite canvasRun_cons. apply renders_inGesture.
  destruct r as [cs st]. unfold inGesture in *. cbn [fst snd] in *.
  destruct Hr
    as (Hdraw & Hpts & Hcol & Hw & Hpos & Huser & Hshown & Hguard & Hcell).
  unfold canvasStep. rewrite Hshown. unfold handleMouseMove. cbn [fst snd].
  destruct (updateCursor_inGesture true pts els pos written
              (toX m) (toY m) (atTime m) cs st Huser Hguard Hcell)
    as (Hu & Hd & Hc).
  cbn [isDrawing currentStroke color strokeWidth cursorPosition].
  rewrite Hdraw, Hpts, Hu, Hd, Hc.
  repeat (split; [done|]). split; [|done].
  unfold displayedDoc in *. destruct externalDoc; [done|]. by rewrite Hd.
Qed.

Lemma moves_inGesture (moves : list Move) (pts : list Point)
    (els : list CanvasElement) (pos : Position) (written : Z)
    (r : CanvasState * Store) :
  inGesture externalDoc user col w others ttl true pts els pos written r →
  inGesture externalDoc user col w others ttl true
    (pts ++ ((λ m, (toX m, toY m)) <$> moves)) els
    (default pos (last ((λ m, {| x := toX m; y := toY m |}) <$> moves)))
    (default written (last (moves ≫= λ m, atTime m :: thenRenders m)))
    (canvasRun save
       (moves ≫= λ m, (externalDoc, MouseMove (toX m) (toY m) (atTime m))
                       :: rendersAt externalDoc (thenRenders m))
       r.1 r.2).
Proof.
  revert pts pos written r.
  induction moves as [|m moves IH]; intros pts pos written r Hr.
  { destruct r. by rewrite app_nil_r. }
  rewrite !bind_cons, canvasRun_app, fmap_cons, fmap_cons.
  rewrite default_last_cons, default_last_app, default_last_cons.
  rewrite (cons_middle _ pts), app_assoc.
  apply IH. by apply (move_inGesture pts els pos written m r).
Qed.

(** The press opens the gesture. *)
Lemma press_inGesture (cs : CanvasState) (st : Store) (d : Automerge.Doc)
    (c : Canvas) (p0x p0y t0 : Z) :
  userId st = user → color cs = col → strokeWidth cs = w →
  cursors c = others → title c = ttl →
  notInitialized (displayedDoc externalDoc st) = false →
  notInitialized (doc st) = false →
  currentDoc st = Some d →
  canvas d = Some c →
  inGesture externalDoc user col w others ttl true [(p0x, p0y)] (elements c)
    {| x := p0x; y := p0y |} t0
    (canvasStep save externalDoc (MouseDown p0x p0y t0) cs st).
Proof.
  intros Huser Hcol Hw Hothers Httl Hshown Hguard Hcur Hcanvas.
  unfold inGesture, canvasStep. rewrite Hshown.
  unfold handleMouseDown, updateCursor. cbn [fst snd]. rewrite Hguard.
  destruct (changeDoc_frame save
              (updateCursor_callback (userId st) p0x p0y t0) st d Hcur)
    as (Hu & Hd & _).
  rewrite Hu, Hd, (changeDoc_currentDoc save _ st d Hcur).
  cbn [isDrawing currentStroke color strokeWidth cursorPosition].
  repeat (split; [done|]). split; [|split; [done|]].
  - unfold displayedDoc in *. destruct externalDoc; [done|]. by rewrite Hd.
  - unfold updateCursor_callback, repairCanvas. rewrite Hcanvas.
    by rewrite Huser, Hothers, Httl.
Qed.

(** The release closes it: the points drawn become one stroke. *)
Lemma release_inGesture (pts : list Point) (els : list CanvasElement)
    (pos : Position) (written : Z) (random36 : string) (tUp : Z)
    (r : CanvasState * Store) :
  pts ≠ [] →
  inGesture externalDoc user col w others ttl true pts els pos written r →
  inGesture externalDoc user col w others ttl false []
    (els ++ [newStroke user pts col w random36 tUp]) pos written
    (canvasStep save externalDoc (MouseUp random36 tUp) r.1 r.2).
Proof.
  intros Hne. destruct r as [cs st]. unfold inGesture. cbn [fst snd].
  intros (Hdraw & Hpts & Hcol & Hw & Hpos & Huser & Hshown & Hguard & Hcell).
  unfold canvasStep. rewrite Hshown. unfold handleMouseUp.
  rewrite Hdraw, Hpts. cbn [andb].
  rewrite bool_decide_eq_true_2 by (destruct pts; simpl; [done|lia]).
  cbn [fst snd isDrawing currentStroke color strokeWidth cursorPosition].
  unfold addStroke. rewrite Hguard.
  destruct (changeDoc_frame save
              (push_callback
                 (newStroke (userId st) pts (color cs) (strokeWidth cs)
                    random36 tUp)) st _ Hcell)
    as (Hu & Hd & _).
  assert (notInitialized
            (displayedDoc externalDoc
               (changeDoc save
                  (push_callback
                     (newStroke (userId st) pts (color cs) (strokeWidth cs)
                        random36 tUp)) st)) = false) as ->.
  { unfold displayedDoc in *. destruct externalDoc; [done|]. by rewrite Hd. }
  rewrite Hu, Hd, (changeDoc_currentDoc save _ st _ Hcell).
  rewrite Hcol, Hw, Huser.
  repeat (split; [done|]). done.
Qed.

End Gesture.

(** X20.  Press, move, release, each followed by the renders that React
    makes: with a canvas in the displayed document and in the store, a
    press at a point, any number of moves and a release add exactly one
    stroke, whose points are the press point followed by the move points in
    order, in the colour and width selected and with the time of the
    release; the user's cursor is left at the last point, with the time of
    the last cursor write, which is the last run of the cursor effect when
    a render follows the release; drawing is over and the pending stroke is
    empty again. *)
Theorem press_move_release_adds_the_stroke_drawn
    (externalDoc : option Automerge.Doc) (cs : CanvasState) (st : Store)
    (d : Automerge.Doc) (c : Canvas) (p0x p0y t0 : Z)
    (pressRenders : list Z) (moves : list Move) (random36 : string)
    (tUp : Z) (releaseRenders : list Z) :
  notInitialized (displayedDoc externalDoc st) = false →
  notInitialized (doc st) = false →
  currentDoc st = Some d →
  canvas d = Some c →
  let r := canvasRun save
             (gesture externalDoc p0x p0y t0 pressRenders moves random36 tUp
                releaseRenders) cs st in
  let final :=
    default {| x := p0x; y := p0y |}
            (last ((λ m, {| x := toX m; y := toY m |}) <$> moves)) in
  let written :=
    default t0 (last (cursorWrites t0 pressRenders moves releaseRenders)) in
  canvasElements r.2
    = elements c
      ++ [Stroke {| stroke_id := generateId random36;
                    points := (p0x, p0y) :: ((λ m, (toX m, toY m)) <$> moves);
                    stroke_color := color cs; width := strokeWidth cs;
                    stroke_creator := userId st;
                    stroke_timestamp := tUp |}]
  ∧ canvasCursors r.2
      = <[userId st := {| position := final; lastActive := written |}]>
          (cursors c)
  ∧ canvasTitle r.2 = Some (title c)
  ∧ isDrawing r.1 = false
  ∧ currentStroke r.1 = [].
Proof.
  intros Hshown Hguard Hcur Hcanvas. cbv zeta.
  pose proof (press_inGesture externalDoc (userId st) (color cs) (title c)
                (strokeWidth cs) (cursors c) cs st d c p0x p0y t0
                eq_refl eq_refl eq_refl eq_refl eq_refl
                Hshown Hguard Hcur Hcanvas) as Hpress.
  apply (renders_inGesture _ _ _ _ _ _ _ _ _ _ _ pressRenders) in Hpress.
  apply (moves_inGesture _ _ _ _ _ _ moves) in Hpress.
  apply (release_inGesture _ _ _ _ _ _ _ _ _ _ random36 tUp) in Hpress;
    [|done].
  apply (renders_inGesture _ _ _ _ _ _ _ _ _ _ _ releaseRenders) in Hpress.
  unfold gesture, cursorWrites.
  rewrite <-!app_comm_cons, canvasRun_cons, !canvasRun_app, canvasRun_cons.
  rewrite default_last_cons, !default_last_app.
  destruct Hpress
    as (Hdraw & Hpts & _ & _ & _ & _ & _ & _ & Hcell).
  unfold canvasElements, canvasCursors, canvasTitle.
  rewrite Hcell, Hdraw, Hpts. done.
Qed.

End CanvasProperties.

(** ** [Sketch] *)

Section SketchProperties.

Context (save : Automerge.Doc → list Byte.byte).

(** X21.  A title typed into the input and left with a blur (or [Enter]) reaches
    the document, and the next render brings it back: with a canvas in
    [localDoc] and in the store, after the blur and one render the
    document has the typed title and the same elements and cursors,
    [localDoc] is that document, and the input shows the typed title. *)
Theorem typed_title_reaches_the_document (h : Hook) (ss : SketchState)
    (d : Automerge.Doc) (c : Canvas) (typed : string) :
  notInitialized (localDoc ss) = false →
  notInitialized (doc (store h)) = false →
  currentDoc (store h) = Some d →
  canvas d = Some c →
  let blurred := handleTitleBlur save h (handleTitleChange typed ss) in
  let rendered := sketchCommit blurred.1 blurred.2 in
  currentDoc (store rendered.1)
    = Some {| canvas := Some {| elements := elements c;
                                cursors := cursors c;
                                title := typed |} |}
  ∧ localDoc rendered.2 = currentDoc (store rendered.1)
  ∧ titleInput rendered.2 = typed
  ∧ isEditingTitle rendered.2 = false.
Proof.
  intros Hlocal Hguard Hcur Hcanvas.
  assert (currentDoc (updateTitle save typed (store h))
            = Some {| canvas := Some {| elements := elements c;
                                        cursors := cursors c;
                                        title := typed |} |}) as Hwritten.
  { unfold updateTitle. rewrite Hguard.
    rewrite (changeDoc_currentDoc save _ (store h) d Hcur).
    unfold updateTitle_callback. by rewrite Hcanvas. }
  cbv zeta. unfold handleTitleBlur, handleTitleChange.
  cbn [fst snd localDoc titleInput isEditingTitle resetAttempted].
  rewrite Hlocal.
  unfold sketchCommit, commit, ensureInitialized, mirrorEffect, titleEffect,
    inStore. simpl. rewrite Hwritten. simpl. by rewrite Hwritten.
Qed.

End SketchProperties.

(** * The further theorems at concrete inputs *)

Lemma initUserId_persists_witness :
  initUserId "0.i9k2mq7x1c" (initUserId "0.4fzyo82mvyr" ∅).2
    = initUserId "0.4fzyo82mvyr" ∅
  ∧ (initUserId "0.4fzyo82mvyr" ∅).2 !! "tinyfoot_userId"
      = Some (initUserId "0.4fzyo82mvyr" ∅).1.
Proof.
  destruct (initUserId_persists "0.4fzyo82mvyr" "0.i9k2mq7x1c" ∅)
    as (Hsame & Hsaved & _).
  - discriminate.
  - split; assumption.
Defined.

Lemma initUserId_empty_id_is_not_kept_witness :
  (initUserId "0" ∅).1 = ""
  ∧ (initUserId "0.4fzyo82mvyr" (initUserId "0" ∅).2).1
      = generateId "0.4fzyo82mvyr".
Proof.
  destruct (initUserId_empty_id_is_not_kept "0" "0.4fzyo82mvyr" ∅)
    as (Hempty & _ & Hnext).
  - left. reflexivity.
  - simpl. lia.
  - split; assumption.
Defined.

Lemma received_snapshot_is_not_merged_witness :
  currentDoc (store (SampleViews.hook (Some OPEN)))
    = Some {| canvas := Some Sample.sketch |}
  ∧ Sample.merge {| canvas := Some Sample.sketch |} emptyDoc
    = {| canvas := Some Sample.sketch |}
  ∧ currentDoc (store
      (receiveAndSettle Sample.load Sample.merge [Byte.x01]
         (SampleViews.hook (Some OPEN)))) = Some emptyDoc
  ∧ currentDoc (store
      (foldl (λ cur binary,
                receiveAndSettle Sample.load Sample.merge binary cur)
             (SampleViews.hook (Some OPEN))
             [[Byte.x01]; [Byte.x01]; [Byte.x01]; [Byte.x01]])) = None.
Proof.
  destruct (received_snapshot_is_not_merged Sample.load Sample.merge
              (SampleViews.hook (Some OPEN))
              {| canvas := Some Sample.sketch |} [Byte.x01]
              eq_refl eq_refl (ex_intro _ emptyDoc eq_refl))
    as (_ & Honce & _ & Hfour).
  split; [reflexivity|]. split; [reflexivity|].
  split; [exact Honce | exact Hfour].
Defined.

Lemma repair_stops_after_three_attempts_witness :
  initializationAttempts
    (foldl (λ cur binary,
              receiveAndSettle Sample.load Sample.merge binary cur)
           (SampleViews.hook (Some OPEN))
           [[Byte.x01]; [Byte.x00]; [Byte.x01]; [Byte.x01]])
  = Nat.min 3 (0 + 4).
Proof.
  apply (repair_stops_after_three_attempts Sample.load Sample.merge
           [[Byte.x01]; [Byte.x00]; [Byte.x01]; [Byte.x01]]
           (SampleViews.hook (Some OPEN))).
  - discriminate.
  - repeat constructor; eexists; reflexivity.
  - simpl. lia.
Defined.

Lemma sketch_is_emptied_by_every_decodable_frame_witness :
  currentDoc (store
    (foldl (λ acc binary,
              sketchReceive Sample.load Sample.merge binary acc.1 acc.2)
           (SampleViews.hook (Some OPEN), SampleViews.sketchState)
           [[Byte.x01]]).1) = Some emptyDoc.
Proof.
  apply (sketch_is_emptied_by_every_decodable_frame Sample.load Sample.merge
           [[Byte.x01]] (SampleViews.hook (Some OPEN))
           SampleViews.sketchState).
  - discriminate.
  - repeat constructor; eexists; reflexivity.
Defined.

Lemma mutation_after_a_decodable_frame_is_dropped_witness :
  currentDoc
    (mutate Sample.save (AddStroke [(7, 7)%Z] "#ff0000" 2 "0.4fzyo82mvyr" 2000)
       (onmessage Sample.load Sample.merge (ArrayBuffer [Byte.x01])
          (Sample.editing "alice" (Some OPEN))))
  = None.
Proof.
  apply (mutation_after_a_decodable_frame_is_dropped Sample.save Sample.load
           Sample.merge
           (AddStroke [(7, 7)%Z] "#ff0000" 2 "0.4fzyo82mvyr" 2000)
           [Byte.x01] (Sample.editing "alice" (Some OPEN))).
  eexists. reflexivity.
Defined.

Lemma addNote_appends_one_note_witness :
  currentDoc (addNote Sample.save "" {| x := 1; y := 2 |} "#ffff88"
                "0.i9k2mq7x1c" 2200 (Sample.editing "alice" None))
  = Some {| canvas := Some
              {| elements :=
                   elements Sample.sketch ++
                   [Note {| note_id := generateId "0.i9k2mq7x1c"; text := "";
                            note_position := {| x := 1; y := 2 |};
                            note_color := "#ffff88";
                            note_creator := "alice";
                            note_timestamp := 2200 |}];
                 cursors := cursors Sample.sketch;
                 title := title Sample.sketch |} |}.
Proof.
  apply (addNote_appends_one_note Sample.save (Sample.editing "alice" None)
           {| canvas := Some Sample.sketch |} Sample.sketch "")
  ; reflexivity.
Defined.

Lemma updateTitle_last_call_decides_witness :
  currentDoc (updateTitle Sample.save "Final"
                (updateTitle Sample.save "Draft"
                   (Sample.editing "alice" (Some OPEN))))
  = currentDoc (updateTitle Sample.save "Final"
                  (Sample.editing "alice" (Some OPEN))).
Proof.
  apply (updateTitle_last_call_decides Sample.save
           (Sample.editing "alice" (Some OPEN))
           {| canvas := Some Sample.sketch |} Sample.sketch "Draft" "Final");
    reflexivity.
Defined.

Lemma one_frame_per_mutation_while_open_witness :
  length (sent (mutateAll Sample.save
                  [UpdateNote "nobody" "x" 2100; UpdateCursor 1 2 2200]
                  (Sample.editing "alice" (Some OPEN))))
  = length (sent (Sample.editing "alice" (Some OPEN))) + 2.
Proof.
  apply (one_frame_per_mutation_while_open Sample.save
           [UpdateNote "nobody" "x" 2100; UpdateCursor 1 2 2200]
           (Sample.editing "alice" (Some OPEN))).
  - reflexivity.
  - eexists. reflexivity.
  - reflexivity.
Defined.

Lemma mutations_never_delete_a_cursor_witness :
  canvasCursors
    (mutateAll Sample.save
       [UpdateCursor 1 2 2200; UpdateTitle "Final";
        AddStroke [(7, 7)%Z] "#ff0000" 2 "0.4fzyo82mvyr" 2300]
       (Sample.editing "alice" None)) !! "bob"
  = canvasCursors (Sample.editing "alice" None) !! "bob".
Proof.
  apply (mutations_never_delete_a_cursor Sample.save
           [UpdateCursor 1 2 2200; UpdateTitle "Final";
            AddStroke [(7, 7)%Z] "#ff0000" 2 "0.4fzyo82mvyr" 2300]
           (Sample.editing "alice" None)).
  discriminate.
Defined.

Lemma live_set_only_shrinks_with_time_witness :
  ("ann", {| position := {| x := 1; y := 1 |}; lastActive := 11000 |})
    ∈ activeCursors "me" 12000 Sample.presence.
Proof.
  apply (live_set_only_shrinks_with_time Sample.presence "me" 12000 20000 None).
  - lia.
  - apply elem_of_activeCursors.
    split; [vm_compute; reflexivity|split; [discriminate|reflexivity]].
Defined.

Lemma updated_cursor_is_live_for_ten_seconds_witness :
  ("alice", {| position := {| x := 8; y := 9 |}; lastActive := 2000 |})
    ∈ activeCursors "bob" 11999
        (canvasCursors (updateCursor Sample.save 8 9 2000
                          (Sample.editing "alice" None))).
Proof.
  apply (updated_cursor_is_live_for_ten_seconds Sample.save
           (Sample.editing "alice" None) {| canvas := Some Sample.sketch |}
           Sample.sketch 8 9 2000 11999 "bob");
    try reflexivity.
  discriminate.
Defined.

Lemma stickyNote_blur_and_enter_witness :
  currentDoc
    (handleBlur (λ id txt, updateNote Sample.save id txt 3000) Sample.note1
       SampleViews.stickyNoteState (Sample.editing "alice" None)).2
  = Some {| canvas := Some
              {| elements :=
                   <[1 := Note (assignText "hi" 3000 Sample.note1)]>
                     (elements Sample.sketch);
                 cursors := cursors Sample.sketch;
                 title := title Sample.sketch |} |}.
Proof.
  destruct (stickyNote_blur_and_enter Sample.save
              (Sample.editing "alice" None)
              {| canvas := Some Sample.sketch |} Sample.sketch 1 Sample.note1
              SampleViews.stickyNoteState
              {| key := "Enter"; shiftKey := false |} 3000
              eq_refl eq_refl eq_refl eq_refl) as [Hblur _].
  apply Hblur. discriminate.
Defined.

Lemma downloadName_has_a_stem_witness :
  ∃ stem : string,
    downloadName (Some {| canvas := Some Sample.sketch |})
      = Some (stem +:+ ".png")
    ∧ stem ≠ "".
Proof.
  destruct (downloadName_has_a_stem (Some {| canvas := Some Sample.sketch |}))
    as [_ Hname].
  destruct (Hname {| canvas := Some Sample.sketch |} Sample.sketch
              eq_refl eq_refl) as (stem & Hstem & Hne & _).
  exists stem. split; assumption.
Defined.

Lemma press_move_release_adds_the_stroke_drawn_witness :
  canvasElements
    (canvasRun Sample.save
       [(None, MouseDown 1 1 2000); (None, Rerender 2000);
        (None, MouseMove 2 3 2010); (None, Rerender 2010);
        (None, MouseMove 4 5 2020); (None, Rerender 2020);
        (None, Rerender 2021);
        (None, MouseUp "0.4fzyo82mvyr" 2030); (None, Rerender 2030)]
       SampleViews.canvasState (Sample.editing "alice" None)).2
  = elements Sample.sketch
    ++ [Stroke {| stroke_id := generateId "0.4fzyo82mvyr";
                  points := [(1, 1); (2, 3); (4, 5)]%Z;
                  stroke_color := "#000000"; width := 3;
                  stroke_creator := "alice"; stroke_timestamp := 2030 |}]
  ∧ canvasCursors
      (canvasRun Sample.save
         [(None, MouseDown 1 1 2000); (None, Rerender 2000);
          (None, MouseMove 2 3 2010); (None, Rerender 2010);
          (None, MouseMove 4 5 2020); (None, Rerender 2020);
          (None, Rerender 2021);
          (None, MouseUp "0.4fzyo82mvyr" 2030); (None, Rerender 2030)]
         SampleViews.canvasState (Sample.editing "alice" None)).2
    = <["alice" := {| position := {| x := 4; y := 5 |};
                      lastActive := 2030 |}]> (cursors Sample.sketch).
Proof.
  destruct (press_move_release_adds_the_stroke_drawn Sample.save None
              SampleViews.canvasState (Sample.editing "alice" None)
              {| canvas := Some Sample.sketch |} Sample.sketch 1 1 2000
              [2000%Z]
              [ {| toX := 2; toY := 3; atTime := 2010;
                   thenRenders := [2010%Z] |};
                {| toX := 4; toY := 5; atTime := 2020;
                   thenRenders := [2020; 2021]%Z |} ]
              "0.4fzyo82mvyr" 2030 [2030%Z]
              eq_refl eq_refl eq_refl eq_refl)
    as (Helements & Hcursors & _).
  split; [exact Helements | exact Hcursors].
Defined.

Lemma typed_title_reaches_the_document_witness :
  titleInput
    (sketchCommit
       (handleTitleBlur Sample.save (SampleViews.hook None)
          (handleTitleChange "Final" SampleViews.sketchState)).1
       (handleTitleBlur Sample.save (SampleViews.hook None)
          (handleTitleChange "Final" SampleViews.sketchState)).2).2
  = "Final".
Proof.
  apply (typed_title_reaches_the_document Sample.save (SampleViews.hook None)
           SampleViews.sketchState {| canvas := Some Sample.sketch |}
           Sample.sketch "Final");
    reflexivity.
Defined.

Lemma resetDocument_starts_over_witness :
  currentDoc (store
    (foldl (λ cur binary,
              receiveAndSettle Sample.load Sample.merge binary cur)
           (commit (resetDocument (SampleViews.hook (Some OPEN))).2)
           [[Byte.x01]; [Byte.x01]; [Byte.x01]]))
  = (if bool_decide (3 ≤ 3) then Some emptyDoc else None).
Proof.
  apply (resetDocument_starts_over Sample.load Sample.merge
           [[Byte.x01]; [Byte.x01]; [Byte.x01]]
           (SampleViews.hook (Some OPEN))).
  - discriminate.
  - repeat constructor; eexists; reflexivity.
Defined.
